(** * poker.py: five-card poker hands, cards, classification and comparison

    A shallow embedding of [poker.py] (a Python 2 module: it uses the
    [print] statement, list-valued [range] and list-valued [dict.values()]).

    - Python exceptions are the constructors of [exn]; a computation that may
      raise has type [result A].
    - Python [str] is [string]; a one-character string (a suit) is its [ascii].
    - Python [int] is [Z].
    - [dict] and [collections.Counter] are [gmap]; the built-in [set] of
      strings is [gset]; the [set] of [Card] objects goes through the class's
      own [__hash__] and [__eq__] and is modelled by [py_set].
    - [sorted(.., key=..)] is a stable sort on the keys, [sorted_by]. *)

From Stdlib Require Import Ascii String.
From stdpp Require Import base option list list_numbers sorting gmap strings.

Open Scope Z_scope.

(** ** Exceptions and results *)

Inductive exn : Type :=
| AssertionError (msg : string)
| IndexError (msg : string)
| NameError (msg : string)
| TypeError (msg : string)
| KeyError.

Inductive result (A : Type) : Type :=
| Ok (a : A)
| Raise (e : exn).
Arguments Ok {A} a.
Arguments Raise {A} e.

Global Instance result_ret : MRet result := λ A a, Ok a.
Global Instance result_bind : MBind result := λ A B f m,
  match m with
  | Ok a => f a
  | Raise e => Raise e
  end.

Global Instance result_fmap : FMap result := λ A B f m,
  match m with
  | Ok a => Ok (f a)
  | Raise e => Raise e
  end.

(** [assert cond, msg] *)
Definition py_assert (cond : bool) (msg : string) : result unit :=
  if cond then Ok () else Raise (AssertionError msg).

(** [[f(x) for x in xs]]: elements are computed left to right and the first
    exception aborts the comprehension. *)
Fixpoint list_comp {A B} (f : A → result B) (xs : list A) : result (list B) :=
  match xs with
  | [] => Ok []
  | x :: xs' => y ← f x; ys ← list_comp f xs'; Ok (y :: ys)
  end.

(** ** Strings *)

(** [s[-1]] *)
Fixpoint str_last (s : string) : result ascii :=
  match s with
  | EmptyString => Raise (IndexError "string index out of range")
  | String a EmptyString => Ok a
  | String _ s' => str_last s'
  end.

(** [s[0:-1]]: slicing never raises. *)
Fixpoint str_init (s : string) : string :=
  match s with
  | EmptyString => EmptyString
  | String _ EmptyString => EmptyString
  | String a s' => String a (str_init s')
  end.

(** [c in s] for a one-character string [c]. *)
Fixpoint char_in (c : ascii) (s : string) : bool :=
  match s with
  | EmptyString => false
  | String a s' => bool_decide (c = a) || char_in c s'
  end.

(** [ord(c)] *)
Definition ord (c : ascii) : Z := Z.of_N (N_of_ascii c).

(** [s.split()]: maximal runs of non-whitespace characters. *)
Definition split (s : string) : list string := String.words s.

(** ** Lists *)

(** [l[i]] for [i >= 0] and [l[-1]]. *)
Definition py_index {A} (l : list A) (i : nat) : result A :=
  match l !! i with
  | Some x => Ok x
  | None => Raise (IndexError "list index out of range")
  end.

Definition py_last {A} (l : list A) : result A :=
  match last l with
  | Some x => Ok x
  | None => Raise (IndexError "list index out of range")
  end.

(** [range(a, b)] (a list in Python 2). *)
Definition range (a b : Z) : list Z := seqZ a (b - a).

(** [l.count(x)] *)
Definition py_count `{EqDecision A} (x : A) (l : list A) : nat :=
  length (filter (λ y, y = x) l).

(** [sorted(l, key=key)]: stable, ascending in the key.  The two keys of the
    program are pairs of integers, compared lexicographically; a plain integer
    list is sorted with the identity key. *)
Section sorted.
Context {A K : Type} (leb : K → K → bool) (key : A → K).

Fixpoint insert_by (x : A) (l : list A) : list A :=
  match l with
  | [] => [x]
  | y :: l' => if leb (key x) (key y) then x :: l else y :: insert_by x l'
  end.

Fixpoint sorted_by (l : list A) : list A :=
  match l with
  | [] => []
  | x :: l' => insert_by x (sorted_by l')
  end.

(** The order of the keys, on the elements. *)
Definition key_le (x y : A) : Prop := leb (key x) (key y) = true.
End sorted.

Definition pair_leb (p q : Z * Z) : bool :=
  (p.1 <? q.1) || ((p.1 =? q.1) && (p.2 <=? q.2)).

(** ** Module-level table *)

Definition RANK_NAME_TO_RANK : gmap string Z :=
  <["2" := 2]> (<["3" := 3]> (<["4" := 4]> (<["5" := 5]> (<["6" := 6]>
  (<["7" := 7]> (<["8" := 8]> (<["9" := 9]> (<["10" := 10]> (<["J" := 11]>
  (<["Q" := 12]> (<["K" := 13]> (<["A" := 14]> ∅)))))))))))).

(** ** class Card *)

Record Card : Type := mkCard { name : string; rank : Z; suit : ascii }.

Global Instance Card_eq_dec : EqDecision Card.
Proof. solve_decision. Defined.

(** [Card.__init__].  [RANK_NAME_TO_RANK.get(rank)] runs after the assertion
    that [rank] is a key of the table, so it returns that key's value. *)
Definition Card_init (name : string) : result Card :=
  let rank := str_init name in
  suit ← str_last name;
  match RANK_NAME_TO_RANK !! rank with
  | None => Raise (AssertionError ("Bad rank: " +:+ name))
  | Some r =>
      _ ← py_assert (char_in suit "hdcs") ("Bad suit: " +:+ name);
      Ok (mkCard name r suit)
  end.

(** [Card.__str__] and [Card.__repr__] *)
Definition Card_str (c : Card) : string := name c.
Definition Card_repr (c : Card) : string := "<Card " +:+ name c +:+ ">".

(** [Card.__eq__] *)
Definition Card_eq (self other : Card) : bool :=
  bool_decide (rank self = rank other) && bool_decide (suit self = suit other).

(** [Card.__hash__] is [hash(self.name)]; the built-in string hash is left
    abstract: [str_hash] is any function on strings. *)
Definition Card_hash (str_hash : string → Z) (c : Card) : Z := str_hash (name c).

(** [set(l)] for a list of [Card] objects.  An element is dropped when the set
    already holds one with the same hash that [__eq__] reports equal; the
    elements are kept in the order they were first met. *)
Section py_set.
Variable str_hash : string → Z.

Definition set_same (x y : Card) : bool :=
  bool_decide (Card_hash str_hash x = Card_hash str_hash y) && Card_eq x y.

Definition set_add (s : list Card) (x : Card) : list Card :=
  if existsb (set_same x) s then s else s ++ [x].

Definition py_set (l : list Card) : list Card := foldl set_add [] l.
End py_set.

(** ** class Hand *)

(** The class attribute [Hand.hierarchy]. *)
Definition hierarchy : gmap string Z :=
  <["straight flush" := 9]> (<["four of a kind" := 8]> (<["full house" := 7]>
  (<["flush" := 6]> (<["straight" := 5]> (<["three of a kind" := 4]>
  (<["two pair" := 3]> (<["pair" := 2]> (<["high card" := 1]> ∅)))))))).

Record Hand : Type := mkHand { cards : list Card }.

(** What the constructor is called with: one string, or a sequence whose
    elements are [Card] objects or strings. *)
Inductive item : Type :=
| ItemCard (c : Card)
| ItemStr (s : string).

Inductive hand_arg : Type :=
| ArgStr (s : string)
| ArgSeq (l : list item).

(** [c if type(c) is Card else Card(c)] *)
Definition to_card (c : item) : result Card :=
  match c with
  | ItemCard c => Ok c
  | ItemStr s => Card_init s
  end.

(** [Hand.__init__] *)
Definition Hand_init (str_hash : string → Z) (cards : hand_arg) : result Hand :=
  let cards :=
    match cards with
    | ArgStr s => ItemStr <$> split s
    | ArgSeq l => l
    end in
  self_cards ← list_comp to_card cards;
  _ ← py_assert (bool_decide (length self_cards = 5%nat))
        "Hands must have 5 cards.";
  _ ← py_assert (bool_decide (length (py_set str_hash self_cards) = 5%nat))
        "Cards in hand must be distinct!";
  Ok (mkHand self_cards).

(** [lambda c: (14 - c.rank, -ord(c.suit))] *)
Definition card_key (c : Card) : Z * Z := (14 - rank c, - ord (suit c)).

(** [" ".join(l)] *)
Fixpoint join (sep : string) (l : list string) : string :=
  match l with
  | [] => ""
  | [x] => x
  | x :: l' => x +:+ sep +:+ join sep l'
  end.

(** [Hand.__repr__] *)
Definition Hand_repr (self : Hand) : string :=
  let hand := sorted_by pair_leb card_key (cards self) in
  "<Hand " +:+ join " " (Card_str <$> hand) +:+ ">".

(** [Hand.is_consecutive] *)
Definition is_consecutive (self : Hand) : result bool :=
  let rank_list := sorted_by Z.leb id (rank <$> cards self) in
  lo ← py_index rank_list 0;
  hi ← py_last rank_list;
  if bool_decide (rank_list = range lo (hi + 1)) then Ok true
  else if bool_decide (rank_list = [2; 3; 4; 5; 14]) then Ok true
  else Ok false.

(** [collections.Counter(l)]: each element bumps its own count. *)
Definition Counter (l : list Z) : gmap Z Z :=
  foldl (λ m x, <[x := default 0 (m !! x) + 1]> m) ∅ l.

(** [lambda tup: (-tup[1], -tup[0])] *)
Definition count_key (tup : Z * Z) : Z * Z := (- tup.2, - tup.1).

(** [d.values()] *)
Definition values (d : gmap Z Z) : list Z := (map_to_list d).*2.

(** [Hand.eval] *)
Definition Hand_eval (self : Hand) : result (string * Z) :=
  let sorted_hand := sorted_by pair_leb card_key (cards self) in
  let suits : gset ascii := list_to_set (suit <$> sorted_hand) in
  let flush_status := bool_decide (size suits = 1%nat) in
  straight_status ← is_consecutive self;
  let ranks := rank <$> sorted_hand in
  let counts := Counter ranks in
  let sorted_by_counts := sorted_by pair_leb count_key (map_to_list counts) in
  first ← py_index sorted_by_counts 0;
  let determining := first.1 in
  if straight_status && flush_status then Ok ("straight flush", determining)
  else if bool_decide (4 ∈ values counts) then Ok ("four of a kind", determining)
  else if bool_decide (3 ∈ values counts) && bool_decide (2 ∈ values counts)
    then Ok ("full house", determining)
  else if flush_status then Ok ("flush", determining)
  else if straight_status then Ok ("straight", determining)
  else if bool_decide (3 ∈ values counts) then Ok ("three of a kind", determining)
  else if bool_decide (1 < py_count 2%Z (values counts))%nat
    then Ok ("two pair", determining)
  else if bool_decide (2 ∈ values counts) then Ok ("pair", determining)
  else Ok ("high card", determining).

(** Comparison of two [(str, int)] tuples: the first components decide unless
    they are equal; strings compare character by character. *)
Definition tuple_le (a b : string * Z) : bool :=
  if bool_decide (a.1 = b.1) then a.2 <=? b.2 else String.ltb a.1 b.1.

(** [Hand.__eq__] and [Hand.__ne__] *)
Definition Hand_eq (self other : Hand) : result bool :=
  a ← Hand_eval self; b ← Hand_eval other; Ok (bool_decide (a = b)).

Definition Hand_ne (self other : Hand) : result bool :=
  a ← Hand_eval self; b ← Hand_eval other; Ok (bool_decide (a ≠ b)).

(** The names bound at module level.  A method body resolves a free name
    there (and then in the built-ins, which have no [hierarchy]); the class
    body's own names, such as [Hand.hierarchy], are not in scope in it. *)
Inductive object : Type :=
| ObjModule
| ObjClass
| ObjDict (d : gmap string Z).

Definition module_globals : gmap string object :=
  <["collections" := ObjModule]>
  (<["RANK_NAME_TO_RANK" := ObjDict RANK_NAME_TO_RANK]>
  (<["Card" := ObjClass]> (<["Hand" := ObjClass]> ∅))).

Definition load_global (name : string) : result object :=
  match module_globals !! name with
  | Some o => Ok o
  | None => Raise (NameError ("global name '" +:+ name +:+ "' is not defined"))
  end.

(** [o[k]] with a tuple for [k]. The dictionaries of the module have string
    keys, and a tuple is equal to no string. *)
Definition getitem (o : object) (k : string * Z) : result Z :=
  match o with
  | ObjDict _ => Raise KeyError
  | _ => Raise (TypeError "object has no attribute '__getitem__'")
  end.

(** [Hand.__lt__].  The result is [Some true] for [True] and [None] for the
    [None] a Python function returns when it runs off its end. *)
Definition Hand_lt (self other : Hand) : result (option bool) :=
  h1 ← load_global "hierarchy";
  e1 ← Hand_eval self;
  r1 ← getitem h1 e1;
  h2 ← load_global "hierarchy";
  e2 ← Hand_eval other;
  r2 ← getitem h2 e2;
  if r1 <? r2 then Ok (Some true)
  else _ ← Hand_eval self; Ok None.

(** [Hand.__le__] *)
Definition Hand_le (self other : Hand) : result bool :=
  a ← Hand_eval self; b ← Hand_eval other; Ok (tuple_le a b).

(** The class has no [__gt__] and no [__ge__]: [a > b] and [a >= b] run the
    reflected methods [b.__lt__(a)] and [b.__le__(a)]. *)
Definition Hand_gt (self other : Hand) : result (option bool) := Hand_lt other self.
Definition Hand_ge (self other : Hand) : result bool := Hand_le other self.

(** ** The vocabulary of the specification for construction

    The fixed tables for card tokens, the three error kinds (the program
    raises each of them through an [assert]), and the canonical order. *)

Definition rank_table : list (string * Z) :=
  [("2", 2); ("3", 3); ("4", 4); ("5", 5); ("6", 6); ("7", 7); ("8", 8);
   ("9", 9); ("10", 10); ("J", 11); ("Q", 12); ("K", 13); ("A", 14)].

Definition suit_chars : list ascii := ["h"; "d"; "c"; "s"]%char.

(** [name] is the rank text [r] followed by the suit character [s]. *)
Definition valid_token (name r : string) (v : Z) (s : ascii) : Prop :=
  name = r +:+ String s "" ∧ (r, v) ∈ rank_table ∧ s ∈ suit_chars.

Definition InvalidCard (name : string) (e : exn) : Prop :=
  e = AssertionError ("Bad rank: " +:+ name) ∨
  e = AssertionError ("Bad suit: " +:+ name).

Definition InvalidHandSize : exn := AssertionError "Hands must have 5 cards.".

Definition DuplicateCard : exn := AssertionError "Cards in hand must be distinct!".

(** A card as [Card.__init__] leaves it. *)
Definition valid_card (c : Card) : Prop := Card_init (name c) = Ok c.

(** The sequence the constructor iterates over. *)
Definition supplied (arg : hand_arg) : list item :=
  match arg with
  | ArgStr s => ItemStr <$> split s
  | ArgSeq l => l
  end.

(** Descending rank, and descending suit character code within a rank. *)
Definition canonical_before (c1 c2 : Card) : Prop :=
  rank c2 < rank c1 ∨ (rank c1 = rank c2 ∧ ord (suit c2) ≤ ord (suit c1)).

Definition canonical_order (l : list Card) : Prop :=
  StronglySorted canonical_before l.

(** What [__hash__] and [__eq__] together let a [set] tell apart. *)
Definition set_key (str_hash : string → Z) (c : Card) : Z * Z * ascii :=
  (Card_hash str_hash c, rank c, suit c).

Definition card_id (c : Card) : Z * ascii := (rank c, suit c).

(** ** The classification table of the specification

    The conditions of the table, stated on the cards of the hand and not on
    the sets, counters and sorted lists [Hand.eval] computes. *)

Definition ranks_of (h : Hand) : list Z := rank <$> cards h.

(** All cards share one suit. *)
Definition is_flush (h : Hand) : Prop := ∃ s, ∀ c, c ∈ cards h → suit c = s.

(** The ranks are five consecutive integers, or the wheel. *)
Definition is_straight (h : Hand) : Prop :=
  (∃ lo, ranks_of h ≡ₚ seqZ lo 5) ∨ ranks_of h ≡ₚ [2; 3; 4; 5; 14].

(** The number of cards of rank [r]. *)
Definition rank_count (h : Hand) (r : Z) : nat :=
  length (filter (λ c, rank c = r) (cards h)).

Definition some_rank_has (h : Hand) (n : nat) : Prop := ∃ r, rank_count h r = n.

Definition two_ranks_have (h : Hand) (n : nat) : Prop :=
  ∃ r1 r2, r1 ≠ r2 ∧ rank_count h r1 = n ∧ rank_count h r2 = n.

Definition category_table (h : Hand) : list (Prop * string) :=
  [ (is_straight h ∧ is_flush h, "straight flush");
    (some_rank_has h 4, "four of a kind");
    (some_rank_has h 3 ∧ some_rank_has h 2, "full house");
    (is_flush h, "flush");
    (is_straight h, "straight");
    (some_rank_has h 3, "three of a kind");
    (two_ranks_have h 2, "two pair");
    (some_rank_has h 2, "pair");
    (True, "high card") ].

(** Rows are tried from the top and the first one whose condition holds
    gives the category. *)
Inductive first_match : list (Prop * string) → string → Prop :=
| first_match_here (P : Prop) c rows : P → first_match ((P, c) :: rows) c
| first_match_next (P : Prop) c rows c' :
    ¬ P → first_match rows c' → first_match ((P, c) :: rows) c'.

(** ** [Hand.eval] without the sorted copy

    The flags and the counter do not depend on the order of the cards, so
    they can be read off the stored cards directly. *)

Definition flush_of (h : Hand) : bool :=
  bool_decide (size (list_to_set (suit <$> cards h) : gset ascii) = 1%nat).

Definition counts_of (h : Hand) : gmap Z Z := Counter (ranks_of h).

Definition first_by_counts (h : Hand) : result (Z * Z) :=
  py_index (sorted_by pair_leb count_key (map_to_list (counts_of h))) 0.

Definition pick_category (straight flush : bool) (counts : gmap Z Z) : string :=
  if straight && flush then "straight flush"
  else if bool_decide (4 ∈ values counts) then "four of a kind"
  else if bool_decide (3 ∈ values counts) && bool_decide (2 ∈ values counts)
    then "full house"
  else if flush then "flush"
  else if straight then "straight"
  else if bool_decide (3 ∈ values counts) then "three of a kind"
  else if bool_decide (1 < py_count 2%Z (values counts))%nat then "two pair"
  else if bool_decide (2 ∈ values counts) then "pair"
  else "high card".

(** ** Sample hands

    The hands of the module's doctests, built by the constructor from their
    strings with a sample string hash. *)

Definition length_hash (s : string) : Z := Z.of_nat (String.length s).

Definition hand_of (s : string) : result Hand := Hand_init length_hash (ArgStr s).

Definition card (n : string) (r : Z) (s : ascii) : Card := mkCard n r s.

Definition straight_flush2 : Hand :=
  mkHand [card "6s" 6 "s"; card "5s" 5 "s"; card "4s" 4 "s"; card "3s" 3 "s";
          card "2s" 2 "s"].

Definition straight2 : Hand :=
  mkHand [card "6s" 6 "s"; card "5c" 5 "c"; card "4c" 4 "c"; card "3d" 3 "d";
          card "2h" 2 "h"].

Definition straight3 : Hand :=
  mkHand [card "5c" 5 "c"; card "4c" 4 "c"; card "3d" 3 "d"; card "2h" 2 "h";
          card "Ah" 14 "h"].

Definition flush1 : Hand :=
  mkHand [card "9s" 9 "s"; card "8s" 8 "s"; card "6s" 6 "s"; card "4s" 4 "s";
          card "2s" 2 "s"].

Definition none1 : Hand :=
  mkHand [card "As" 14 "s"; card "7d" 7 "d"; card "5c" 5 "c"; card "4d" 4 "d";
          card "3h" 3 "h"].

(** The two hands of the [__lt__] docstring. *)
Definition lt_h1 : Hand :=
  mkHand [card "2d" 2 "d"; card "3d" 3 "d"; card "4d" 4 "d"; card "5d" 5 "d";
          card "6d" 6 "d"].

Definition lt_h2 : Hand :=
  mkHand [card "3d" 3 "d"; card "4d" 4 "d"; card "5d" 5 "d"; card "6d" 6 "d";
          card "7d" 7 "d"].

(** * Properties *)

(** ** The doctests that construct and display *)

Example Card_Ks : Card_init "Ks" = Ok (mkCard "Ks" 13 "s").
Proof. by vm_compute. Qed.

Example Card_Ac_rank : rank <$> Card_init "Ac" = Ok 14.
Proof. by vm_compute. Qed.

Example Card_10d_rank : rank <$> Card_init "10d" = Ok 10.
Proof. by vm_compute. Qed.

Example split_two_spaces :
  split "6s 5s 4s 3s  2s" = ["6s"; "5s"; "4s"; "3s"; "2s"].
Proof. by vm_compute. Qed.

Example Hand_repr_sorted :
  Hand_repr <$> hand_of "8d 7s 7h 7c 7d" = Ok "<Hand 8d 7s 7h 7d 7c>".
Proof. by vm_compute. Qed.

Example Hand_eq_doctest :
  (a ← hand_of "2d 3d 4d 5d 6d"; b ← hand_of "6d 5d 4d 3d 2d"; Hand_eq a b)
  = Ok true.
Proof. by vm_compute. Qed.

Example Hand_le_doctest : Hand_le lt_h1 lt_h2 = Ok true.
Proof. by vm_compute. Qed.

(** One hand of the module docstring per category. *)
Example eval_doctest_hands :
  (hand_of "As Ks Qs Js 10s" ≫= Hand_eval) = Ok ("straight flush", 14) ∧
  (hand_of "6c 6d 6s 6h 2c" ≫= Hand_eval) = Ok ("four of a kind", 6) ∧
  (hand_of "3c 3d 3s 2h 2s" ≫= Hand_eval) = Ok ("full house", 3) ∧
  (hand_of "9s 8s 6s 4s 2s" ≫= Hand_eval) = Ok ("flush", 9) ∧
  (hand_of "Ah Kc Qd Jc 10h" ≫= Hand_eval) = Ok ("straight", 14) ∧
  (hand_of "7s 7c 7d 2h 3d" ≫= Hand_eval) = Ok ("three of a kind", 7) ∧
  (hand_of "6s 6c 2h 2s 9d" ≫= Hand_eval) = Ok ("two pair", 6) ∧
  (hand_of "6s 6c 2h 3s 9d" ≫= Hand_eval) = Ok ("pair", 6) ∧
  (hand_of "As 7d 5c 4d 3h" ≫= Hand_eval) = Ok ("high card", 14).
Proof. split_and!; by vm_compute. Qed.

(** The docstring's second four-of-a-kind hand names "5s" twice. *)
Example four_kind2_rejected :
  hand_of "5s 5d 5s 5h Ah" = Raise DuplicateCard.
Proof. by vm_compute. Qed.

(** ** The table picks one category *)

Lemma first_match_functional (rows : list (Prop * string)) (c c' : string) :
  first_match rows c → first_match rows c' → c = c'.
Proof.
  induction 1 as [P c rows HP|P c rows c0 HnP _ IH]; inversion 1; subst;
    (done || by apply IH).
Qed.

(** ** The result monad *)

Lemma bind_Ok {A B} (f : A → result B) (m : result A) (b : B) :
  m ≫= f = Ok b ↔ ∃ a, m = Ok a ∧ f a = Ok b.
Proof.
  destruct m as [a|e]; simpl; split.
  - intros Hf. by exists a.
  - by intros (a' & [= <-] & Hf).
  - done.
  - by intros (a' & Hm & _).
Qed.

Ltac simpl_bind := cbn [mbind result_bind mret result_ret].

Lemma py_assert_Ok cond msg u : py_assert cond msg = Ok u ↔ cond = true.
Proof. destruct cond, u; simpl; split; done. Qed.

(** ** Sorting *)

Section sorted_facts.
Context {A K : Type} (leb : K → K → bool) (key : A → K).
Hypothesis leb_total : ∀ a b, leb a b = true ∨ leb b a = true.
Hypothesis leb_trans : ∀ a b c, leb a b = true → leb b c = true → leb a c = true.

Lemma insert_by_perm x l : insert_by leb key x l ≡ₚ x :: l.
Proof.
  induction l as [|y l IH]; simpl; [done|].
  destruct (leb (key x) (key y)); [done|].
  rewrite IH. apply Permutation_swap.
Qed.

Lemma sorted_by_perm l : sorted_by leb key l ≡ₚ l.
Proof.
  induction l as [|x l IH]; simpl; [done|].
  by rewrite insert_by_perm, IH.
Qed.

Lemma length_sorted_by l : length (sorted_by leb key l) = length l.
Proof. by rewrite sorted_by_perm. Qed.

Lemma insert_by_sorted x l :
  StronglySorted (key_le leb key) l →
  StronglySorted (key_le leb key) (insert_by leb key x l).
Proof using leb_total leb_trans.
  induction 1 as [|y l Hl IH Hy]; simpl.
  - repeat constructor.
  - destruct (leb (key x) (key y)) eqn:Hxy.
    + constructor; [by constructor|].
      constructor; [done|].
      eapply Forall_impl; [exact Hy|]. intros z Hz. by eapply leb_trans.
    + constructor; [done|].
      rewrite insert_by_perm. constructor; [|done].
      destruct (leb_total (key x) (key y)); [congruence|done].
Qed.

Lemma sorted_by_sorted l :
  StronglySorted (key_le leb key) (sorted_by leb key l).
Proof using leb_total leb_trans.
  induction l; simpl; [constructor|by apply insert_by_sorted].
Qed.
End sorted_facts.

Lemma pair_leb_total a b : pair_leb a b = true ∨ pair_leb b a = true.
Proof. unfold pair_leb. destruct a, b; simpl. lia. Qed.

Lemma pair_leb_trans a b c :
  pair_leb a b = true → pair_leb b c = true → pair_leb a c = true.
Proof. unfold pair_leb. destruct a, b, c; simpl. lia. Qed.

Lemma StronglySorted_mono {A} (R1 R2 : relation A) l :
  (∀ x y, R1 x y → R2 x y) → StronglySorted R1 l → StronglySorted R2 l.
Proof.
  intros HR. induction 1 as [|x l _ IH Hx]; constructor; [done|].
  eapply Forall_impl; [exact Hx|]. intros y. apply HR.
Qed.

Lemma sorted_Z_sorted (l : list Z) : Sorted Z.le (sorted_by Z.leb id l).
Proof.
  apply StronglySorted_Sorted.
  apply (StronglySorted_mono (key_le Z.leb id)).
  - intros x y. unfold key_le, id. lia.
  - apply sorted_by_sorted; intros; lia.
Qed.

Lemma sorted_Z_unique (l k : list Z) :
  Sorted Z.le k → l ≡ₚ k → sorted_by Z.leb id l = k.
Proof.
  intros Hk Hp. apply (Sorted_unique Z.le); [apply sorted_Z_sorted|done|].
  by rewrite sorted_by_perm.
Qed.

Lemma sorted_Z_perm (l k : list Z) :
  l ≡ₚ k → sorted_by Z.leb id l = sorted_by Z.leb id k.
Proof.
  intros Hp. apply sorted_Z_unique; [apply sorted_Z_sorted|].
  by rewrite sorted_by_perm.
Qed.

(** The order in which the dictionary lists its items does not reach the
    result of the sort: the keys [(-count, -rank)] of distinct items differ. *)
Lemma sorted_by_counts_any_order (l k : list (Z * Z)) :
  l ≡ₚ k → sorted_by pair_leb count_key l = sorted_by pair_leb count_key k.
Proof.
  intros Hp.
  apply (StronglySorted_unique_strong (key_le pair_leb count_key)).
  - intros [r1 n1] [r2 n2] _ _. unfold key_le, pair_leb, count_key. simpl.
    intros H1 H2. f_equal; lia.
  - apply sorted_by_sorted; [apply pair_leb_total|apply pair_leb_trans].
  - apply sorted_by_sorted; [apply pair_leb_total|apply pair_leb_trans].
  - by rewrite !sorted_by_perm.
Qed.

(** ** [list.count] and [collections.Counter] *)

Lemma py_count_cons `{EqDecision A} (x y : A) l :
  py_count x (y :: l) = if decide (y = x) then S (py_count x l) else py_count x l.
Proof. unfold py_count. rewrite filter_cons. by destruct (decide (y = x)). Qed.

Lemma py_count_perm `{EqDecision A} (x : A) l k :
  l ≡ₚ k → py_count x l = py_count x k.
Proof. unfold py_count. by intros ->. Qed.

Lemma py_count_fmap {A} `{EqDecision B} (f : A → B) (y : B) (l : list A) :
  py_count y (f <$> l) = length (filter (λ a, f a = y) l).
Proof.
  induction l as [|a l IH]; [done|].
  rewrite fmap_cons, py_count_cons, filter_cons.
  destruct (decide (f a = y)); simpl; by rewrite IH.
Qed.

Lemma py_count_pos `{EqDecision A} (x : A) l : (0 < py_count x l)%nat ↔ x ∈ l.
Proof.
  induction l as [|y l IH].
  - split; [inversion 1|by intros ?%elem_of_nil].
  - rewrite py_count_cons, elem_of_cons.
    destruct (decide (y = x)) as [->|Hne]; [split; [auto|lia]|].
    rewrite IH. split; [auto|]. by intros [?|?].
Qed.

Lemma Counter_fold_lookup (l : list Z) (m : gmap Z Z) (r : Z) :
  foldl (λ m x, <[x := default 0 (m !! x) + 1]> m) m l !! r =
    if decide (py_count r l = 0%nat) then m !! r
    else Some (default 0 (m !! r) + Z.of_nat (py_count r l)).
Proof.
  revert m. induction l as [|x l IH]; intros m; [done|].
  simpl. rewrite IH, py_count_cons.
  destruct (decide (x = r)) as [->|Hne].
  - rewrite lookup_insert_eq. simpl.
    repeat case_decide; try lia; f_equal; lia.
  - by rewrite lookup_insert_ne.
Qed.

Lemma Counter_lookup (l : list Z) (r : Z) :
  Counter l !! r =
    if decide (py_count r l = 0%nat) then None else Some (Z.of_nat (py_count r l)).
Proof.
  unfold Counter. rewrite Counter_fold_lookup, lookup_empty.
  case_decide; [done|]. simpl. f_equal.
Qed.

Lemma Counter_perm (l k : list Z) : l ≡ₚ k → Counter l = Counter k.
Proof.
  intros Hp. apply map_eq. intros r.
  by rewrite !Counter_lookup, (py_count_perm r l k Hp).
Qed.

Lemma Counter_lookup_Some (l : list Z) (r n : Z) :
  Counter l !! r = Some n ↔ 0 < n ∧ Z.of_nat (py_count r l) = n.
Proof.
  rewrite Counter_lookup. case_decide; split.
  - done.
  - intros [? ?]. lia.
  - intros [= <-]. lia.
  - by intros [_ ->].
Qed.

Lemma elem_of_values (d : gmap Z Z) (n : Z) :
  n ∈ values d ↔ ∃ r, d !! r = Some n.
Proof.
  unfold values. rewrite list_elem_of_fmap. split.
  - intros ([r n'] & -> & Hin). exists r. by apply elem_of_map_to_list.
  - intros (r & Hr). exists (r, n). split; [done|]. by apply elem_of_map_to_list.
Qed.

(** Two entries of a key-unique item list carry the value [v] exactly when
    [v] occurs more than once among the values. *)
Lemma count_values_gt_1 (l : list (Z * Z)) (v : Z) :
  NoDup l.*1 →
  (1 < py_count v l.*2)%nat ↔
  ∃ r1 r2, r1 ≠ r2 ∧ (r1, v) ∈ l ∧ (r2, v) ∈ l.
Proof.
  induction l as [|[k w] l IH]; intros Hnd.
  - split; [inversion 1|]. by intros (? & ? & _ & ?%elem_of_nil & _).
  - rewrite fmap_cons in Hnd. apply NoDup_cons in Hnd as [Hk Hnd].
    rewrite fmap_cons, py_count_cons. simpl.
    destruct (decide (w = v)) as [->|Hne].
    + split.
      * intros Hc. assert (0 < py_count v l.*2)%nat as Hpos by lia.
        apply py_count_pos, list_elem_of_fmap in Hpos as ([r v'] & Hv & Hin).
        simpl in Hv. subst v'. exists k, r. split_and!.
        -- intros ->. apply Hk, list_elem_of_fmap. by exists (r, v).
        -- left.
        -- by right.
      * intros (r1 & r2 & Hr & H1 & H2).
        assert (∃ r, (r, v) ∈ l) as (r & Hin).
        { apply elem_of_cons in H1 as [?|?]; [|eauto].
          apply elem_of_cons in H2 as [?|?]; [|eauto]. congruence. }
        assert (0 < py_count v l.*2)%nat; [|lia].
        apply py_count_pos, list_elem_of_fmap. by exists (r, v).
    + rewrite (IH Hnd). split.
      * intros (r1 & r2 & ? & ? & ?). exists r1, r2. split_and!; [done|by right..].
      * intros (r1 & r2 & ? & H1 & H2). exists r1, r2.
        apply elem_of_cons in H1 as [?|?]; [congruence|].
        apply elem_of_cons in H2 as [?|?]; [congruence|]. done.
Qed.

Lemma count_values_Counter (l : list Z) (v : Z) :
  0 < v →
  (1 < py_count v (values (Counter l)))%nat ↔
  ∃ r1 r2, r1 ≠ r2 ∧ Z.of_nat (py_count r1 l) = v ∧ Z.of_nat (py_count r2 l) = v.
Proof.
  intros Hv. unfold values.
  rewrite count_values_gt_1 by apply NoDup_fst_map_to_list.
  setoid_rewrite elem_of_map_to_list. setoid_rewrite Counter_lookup_Some.
  split.
  - intros (r1 & r2 & ? & [_ ?] & [_ ?]). by exists r1, r2.
  - intros (r1 & r2 & ? & ? & ?). by exists r1, r2.
Qed.

Lemma values_Counter (l : list Z) (v : Z) :
  0 < v →
  v ∈ values (Counter l) ↔ ∃ r, Z.of_nat (py_count r l) = v.
Proof.
  intros Hv. rewrite elem_of_values.
  setoid_rewrite Counter_lookup_Some. split.
  - intros (r & _ & ?). by exists r.
  - intros (r & ?). by exists r.
Qed.

(** ** Flush and straight detection *)

Lemma flush_of_spec (h : Hand) :
  cards h ≠ [] → flush_of h = true ↔ is_flush h.
Proof.
  intros Hne. unfold flush_of, is_flush. rewrite bool_decide_eq_true. split.
  - intros (s & Hs)%size_1_elem_of. exists s. intros c Hc.
    assert (suit c ∈ (list_to_set (suit <$> cards h) : gset ascii)) as Hin.
    { apply elem_of_list_to_set, list_elem_of_fmap. by exists c. }
    rewrite Hs in Hin. by apply elem_of_singleton in Hin.
  - intros (s & Hs).
    assert ((list_to_set (suit <$> cards h) : gset ascii) = {[ s ]}) as ->;
      [|apply size_singleton].
    apply set_eq. intros x.
    rewrite elem_of_list_to_set, list_elem_of_fmap, elem_of_singleton. split.
    + intros (c & -> & Hc). by apply Hs.
    + intros ->. destruct (cards h) as [|c l] eqn:Hl; [done|].
      exists c. split; [symmetry; apply Hs|]; left.
Qed.

Lemma seqZ_5 (lo : Z) : seqZ lo 5 = [lo; lo + 1; lo + 2; lo + 3; lo + 4].
Proof.
  unfold seqZ. replace (Z.to_nat 5) with 5%nat by lia. cbn.
  repeat (f_equal; try lia).
Qed.

Lemma Sorted_seqZ_5 (lo : Z) : Sorted Z.le (seqZ lo 5).
Proof. rewrite seqZ_5. repeat constructor; lia. Qed.

Lemma Sorted_wheel : Sorted Z.le [2; 3; 4; 5; 14].
Proof. repeat constructor; lia. Qed.

Lemma is_consecutive_spec (h : Hand) :
  length (cards h) = 5%nat →
  ∃ b, is_consecutive h = Ok b ∧ (b = true ↔ is_straight h).
Proof.
  intros Hlen. unfold is_consecutive, is_straight.
  fold (ranks_of h).
  assert (length (sorted_by Z.leb id (ranks_of h)) = 5%nat) as Hl.
  { unfold ranks_of. by rewrite length_sorted_by, length_fmap. }
  assert (∀ k, Sorted Z.le k → ranks_of h ≡ₚ k →
               sorted_by Z.leb id (ranks_of h) = k) as Huniq
    by (intros; by apply sorted_Z_unique).
  pose proof (sorted_by_perm Z.leb id (ranks_of h)) as Hperm.
  destruct (sorted_by Z.leb id (ranks_of h))
    as [|a [|b [|c [|d [|e [|? ?]]]]]]; try discriminate Hl.
  cbn [py_index py_last lookup list_lookup last mbind result_bind].
  unfold range.
  destruct (decide ([a; b; c; d; e] = seqZ a (e + 1 - a))) as [Heq|Hneq].
  - rewrite bool_decide_eq_true_2 by done. exists true. split; [done|]. split; [|done].
    intros _. left. exists a.
    assert (e + 1 - a = 5) as Hd.
    { apply (f_equal length) in Heq. rewrite length_seqZ in Heq. simpl in Heq. lia. }
    rewrite Hd in Heq. by rewrite <-Heq, Hperm.
  - rewrite bool_decide_eq_false_2 by done.
    destruct (decide ([a; b; c; d; e] = [2; 3; 4; 5; 14])) as [Heq|Hneq'].
    + rewrite bool_decide_eq_true_2 by done. exists true. split; [done|]. split; [|done].
      intros _. right. by rewrite <-Heq, Hperm.
    + rewrite bool_decide_eq_false_2 by done. exists false. split; [done|].
      split; [done|]. intros [[lo Hlo]|Hw]; exfalso.
      * apply Huniq in Hlo; [|apply Sorted_seqZ_5].
        rewrite seqZ_5 in Hlo. injection Hlo as -> -> -> -> ->.
        apply Hneq. replace (lo + 4 + 1 - lo) with 5 by lia. by rewrite seqZ_5.
      * apply Huniq in Hw; [|apply Sorted_wheel]. done.
Qed.

(** ** [Hand.eval]: the sorted copy is a permutation of the stored cards *)

Lemma sorted_hand_perm (h : Hand) :
  sorted_by pair_leb card_key (cards h) ≡ₚ cards h.
Proof. apply sorted_by_perm. Qed.

Lemma Hand_eval_unfold (h : Hand) :
  Hand_eval h =
    straight ← is_consecutive h;
    first ← first_by_counts h;
    Ok (pick_category straight (flush_of h) (counts_of h), first.1).
Proof.
  unfold Hand_eval, first_by_counts, counts_of, flush_of, ranks_of.
  rewrite (list_to_set_perm_L (C:=gset ascii) _ _
             (fmap_Permutation suit _ _ (sorted_hand_perm h))).
  rewrite (Counter_perm _ _ (fmap_Permutation rank _ _ (sorted_hand_perm h))).
  destruct (is_consecutive h) as [straight|]; [|done]. simpl.
  destruct (py_index _ 0) as [first|]; [|done]. simpl.
  unfold pick_category.
  repeat (match goal with |- context [if ?b then _ else _] => destruct b end;
          try done).
Qed.

Lemma counts_of_lookup (h : Hand) (r n : Z) :
  counts_of h !! r = Some n ↔ 0 < n ∧ Z.of_nat (rank_count h r) = n.
Proof.
  unfold counts_of, rank_count, ranks_of.
  by rewrite Counter_lookup_Some, py_count_fmap.
Qed.

Lemma first_by_counts_Ok (h : Hand) :
  cards h ≠ [] → ∃ d n, first_by_counts h = Ok (d, n) ∧ d ∈ ranks_of h.
Proof.
  intros Hne. unfold first_by_counts, py_index.
  pose proof (sorted_by_perm pair_leb count_key (map_to_list (counts_of h))) as Hp.
  destruct (sorted_by pair_leb count_key (map_to_list (counts_of h)))
    as [|[d n] l].
  - exfalso. apply Permutation_nil_l in Hp. symmetry in Hp.
    apply map_to_list_empty_iff in Hp.
    destruct (cards h) as [|c l] eqn:Hc; [done|].
    assert (counts_of h !! rank c = None) as Hnone by (by rewrite Hp).
    unfold counts_of, ranks_of in Hnone. rewrite Hc, Counter_lookup in Hnone.
    rewrite fmap_cons, py_count_cons in Hnone.
    destruct (decide (rank c = rank c)); [|done]. by case_decide.
  - exists d, n. split; [done|].
    assert ((d, n) ∈ map_to_list (counts_of h)) as Hin by (rewrite <-Hp; left).
    apply elem_of_map_to_list, Counter_lookup_Some in Hin as [Hpos Hn].
    apply (py_count_pos d). lia.
Qed.

(** ** The flags of [Hand.eval] against the conditions of the table *)

Lemma some_rank_has_spec (h : Hand) (n : nat) :
  (0 < n)%nat →
  Z.of_nat n ∈ values (counts_of h) ↔ some_rank_has h n.
Proof.
  intros Hn. unfold counts_of, some_rank_has, rank_count, ranks_of.
  rewrite values_Counter by lia. setoid_rewrite py_count_fmap.
  split; intros (r & Hr); exists r; lia.
Qed.

Lemma two_ranks_have_spec (h : Hand) (n : nat) :
  (0 < n)%nat →
  (1 < py_count (Z.of_nat n) (values (counts_of h)))%nat ↔ two_ranks_have h n.
Proof.
  intros Hn. unfold counts_of, two_ranks_have, rank_count, ranks_of.
  rewrite count_values_Counter by lia. setoid_rewrite py_count_fmap.
  split; intros (r1 & r2 & ? & ? & ?); exists r1, r2; split_and!; (done || lia).
Qed.

Lemma pick_category_first_match (h : Hand) (straight : bool) :
  cards h ≠ [] →
  (straight = true ↔ is_straight h) →
  first_match (category_table h)
    (pick_category straight (flush_of h) (counts_of h)).
Proof.
  intros Hne Hs.
  pose proof (flush_of_spec h Hne) as Hf.
  pose proof (some_rank_has_spec h 4 ltac:(lia)) as H4.
  pose proof (some_rank_has_spec h 3 ltac:(lia)) as H3.
  pose proof (some_rank_has_spec h 2 ltac:(lia)) as H2.
  pose proof (two_ranks_have_spec h 2 ltac:(lia)) as H22.
  change (Z.of_nat 4) with 4 in H4. change (Z.of_nat 3) with 3 in H3.
  change (Z.of_nat 2) with 2 in H2, H22.
  unfold pick_category, category_table.
  destruct straight, (flush_of h); simpl;
    repeat case_bool_decide; simpl;
    repeat first
      [ by (apply first_match_here; tauto)
      | apply first_match_next; [try tauto; intuition congruence|] ].
Qed.

Lemma pick_category_hierarchy straight flush counts :
  is_Some (hierarchy !! pick_category straight flush counts).
Proof.
  unfold pick_category.
  repeat (match goal with |- context [if ?b then _ else _] => destruct b end;
          try (by vm_compute; eexists)).
Qed.

(** ** Card construction *)

Lemma str_app_last (r : string) (s : ascii) :
  str_last (r +:+ String s "") = Ok s ∧ str_init (r +:+ String s "") = r.
Proof.
  induction r as [|a r [IH1 IH2]]; [done|].
  change (String a r +:+ String s "") with (String a (r +:+ String s "")).
  destruct (r +:+ String s "") as [|b t] eqn:Heq.
  - by destruct r.
  - simpl. split; [done|]. by f_equal.
Qed.

Lemma str_last_Ok (name : string) (s : ascii) :
  str_last name = Ok s → name = str_init name +:+ String s "".
Proof.
  induction name as [|a [|b t] IH]; [done| |].
  - by intros [= ->].
  - intros Hl. change (String a (String b t) = String a (str_init (String b t) +:+ String s "")).
    f_equal. by apply IH.
Qed.

Lemma str_last_Raise (name : string) (e : exn) :
  str_last name = Raise e →
  name = "" ∧ e = IndexError "string index out of range".
Proof.
  induction name as [|a [|b t] IH]; [by intros [= <-]|done|].
  intros Hl. by destruct (IH Hl).
Qed.

Lemma RANK_NAME_TO_RANK_table :
  RANK_NAME_TO_RANK = list_to_map rank_table.
Proof. reflexivity. Qed.

Lemma RANK_NAME_TO_RANK_lookup (r : string) (v : Z) :
  RANK_NAME_TO_RANK !! r = Some v ↔ (r, v) ∈ rank_table.
Proof.
  rewrite RANK_NAME_TO_RANK_table. symmetry. apply elem_of_list_to_map.
  apply (bool_decide_unpack _). by vm_compute.
Qed.

Lemma rank_table_inj (r1 r2 : string) (v : Z) :
  (r1, v) ∈ rank_table → (r2, v) ∈ rank_table → r1 = r2.
Proof.
  unfold rank_table. rewrite !elem_of_cons, !elem_of_nil.
  intros H1 H2. destruct_or!; simplify_eq; done.
Qed.

Lemma char_in_suits (s : ascii) : char_in s "hdcs" = true ↔ s ∈ suit_chars.
Proof.
  unfold suit_chars. simpl. rewrite !elem_of_cons, elem_of_nil.
  rewrite !orb_true_iff, !bool_decide_eq_true. intuition discriminate.
Qed.

Lemma Card_init_Ok (name : string) (c : Card) :
  Card_init name = Ok c ↔
  ∃ r v s, valid_token name r v s ∧ c = mkCard name v s.
Proof.
  unfold Card_init, valid_token. split.
  - destruct (str_last name) as [s|] eqn:Hs; [|done]. simpl_bind.
    destruct (RANK_NAME_TO_RANK !! str_init name) as [v|] eqn:Hv; [|done].
    destruct (char_in s "hdcs") eqn:Hc; [|done]. simpl_bind. intros [= <-].
    exists (str_init name), v, s. split_and!; [|..|done].
    + by apply str_last_Ok.
    + by apply RANK_NAME_TO_RANK_lookup.
    + by apply char_in_suits.
  - intros (r & v & s & (-> & Hr & Hs) & ->).
    destruct (str_app_last r s) as [-> ->]. simpl_bind.
    apply RANK_NAME_TO_RANK_lookup in Hr as ->.
    apply char_in_suits in Hs as ->. done.
Qed.

Lemma Card_init_Raise (name : string) (e : exn) :
  Card_init name = Raise e →
  (name = "" ∧ e = IndexError "string index out of range") ∨
  (name ≠ "" ∧ InvalidCard name e).
Proof.
  unfold Card_init, InvalidCard.
  destruct (str_last name) as [s|e'] eqn:Hs; simpl_bind.
  - assert (name ≠ "") by (by intros ->).
    destruct (RANK_NAME_TO_RANK !! str_init name) as [v|]; [|intros [= <-]; auto].
    destruct (char_in s "hdcs"); simpl_bind; [done|]. intros [= <-]. auto.
  - intros [= <-]. left. by apply str_last_Raise.
Qed.

Lemma Card_init_name (s : string) (c : Card) : Card_init s = Ok c → name c = s.
Proof. intros (r & v & a & _ & ->)%Card_init_Ok. done. Qed.

Lemma Card_init_valid (s : string) (c : Card) : Card_init s = Ok c → valid_card c.
Proof. intros Hc. unfold valid_card. by rewrite (Card_init_name s c Hc). Qed.

(** A valid card's name is determined by its rank and suit. *)
Lemma valid_card_name (x y : Card) :
  valid_card x → valid_card y → card_id x = card_id y → name x = name y.
Proof.
  unfold valid_card, card_id.
  intros (r1 & v1 & s1 & (Hn1 & Hr1 & _) & Hx)%Card_init_Ok
         (r2 & v2 & s2 & (Hn2 & Hr2 & _) & Hy)%Card_init_Ok Hid.
  rewrite Hx, Hy in Hid. simpl in Hid. injection Hid as -> ->.
  rewrite Hn1, Hn2. f_equal. by eapply rank_table_inj.
Qed.

(** ** The set of cards *)

Section py_set_facts.
Variable str_hash : string → Z.

Lemma set_same_key (x y : Card) :
  set_same str_hash x y = true ↔ set_key str_hash x = set_key str_hash y.
Proof.
  unfold set_same, Card_eq, set_key.
  rewrite !andb_true_iff, !bool_decide_eq_true. split.
  - intros (-> & -> & ->). done.
  - intros [= -> -> ->]. done.
Qed.

Lemma existsb_set_same (x : Card) (s : list Card) :
  existsb (set_same str_hash x) s = true ↔
  set_key str_hash x ∈ set_key str_hash <$> s.
Proof.
  rewrite existsb_exists, list_elem_of_fmap.
  setoid_rewrite set_same_key. setoid_rewrite <-list_elem_of_In.
  split; intros (y & ? & ?); by exists y.
Qed.

Lemma length_fold_set_add (acc l : list Card) :
  (length (foldl (set_add str_hash) acc l) ≤ length acc + length l)%nat.
Proof.
  revert acc. induction l as [|x l IH]; intros acc; simpl; [lia|].
  etrans; [apply IH|]. unfold set_add.
  destruct (existsb _ acc); rewrite ?length_app; simpl; lia.
Qed.

Lemma fold_set_add_NoDup (acc l : list Card) :
  NoDup (set_key str_hash <$> (acc ++ l)) →
  foldl (set_add str_hash) acc l = acc ++ l.
Proof.
  revert acc. induction l as [|x l IH]; intros acc Hnd; simpl.
  - by rewrite app_nil_r.
  - unfold set_add at 2.
    destruct (existsb _ acc) eqn:Hex.
    + exfalso. apply existsb_set_same in Hex.
      rewrite fmap_app, fmap_cons in Hnd.
      apply NoDup_app in Hnd as (_ & Hdisj & _).
      apply (Hdisj _ Hex). left.
    + rewrite IH; rewrite <-(assoc_L (++)); done.
Qed.

Lemma fold_set_add_dup (acc l : list Card) :
  NoDup (set_key str_hash <$> acc) →
  ¬ NoDup (set_key str_hash <$> (acc ++ l)) →
  (length (foldl (set_add str_hash) acc l) < length acc + length l)%nat.
Proof.
  revert acc. induction l as [|x l IH]; intros acc Hacc Hnd; simpl.
  - by rewrite app_nil_r in Hnd.
  - unfold set_add at 2.
    destruct (existsb _ acc) eqn:Hex.
    + pose proof (length_fold_set_add acc l). lia.
    + assert (NoDup (set_key str_hash <$> (acc ++ [x]))) as Hacc'.
      { rewrite fmap_app. apply NoDup_app. split_and!; [done| |].
        - intros k Hk [->|[]%elem_of_nil]%elem_of_cons.
          apply existsb_set_same in Hk. congruence.
        - apply NoDup_singleton. }
      specialize (IH (acc ++ [x]) Hacc').
      rewrite <-(assoc_L (++)) in IH. specialize (IH Hnd).
      rewrite length_app in IH. simpl in IH. lia.
Qed.

(** [len(set(l)) == len(l)] exactly when no two elements of [l] are the
    same for the set. *)
Lemma length_py_set (l : list Card) :
  length (py_set str_hash l) = length l ↔ NoDup (set_key str_hash <$> l).
Proof.
  unfold py_set. split.
  - intros Hlen. destruct (decide (NoDup (set_key str_hash <$> l))) as [|Hnd];
      [done|].
    pose proof (fold_set_add_dup [] l (NoDup_nil_2) Hnd) as Hlt.
    simpl in Hlt. lia.
  - intros Hnd. by rewrite (fold_set_add_NoDup [] l).
Qed.

Lemma set_key_valid (x y : Card) :
  valid_card x → valid_card y →
  set_key str_hash x = set_key str_hash y ↔ card_id x = card_id y.
Proof.
  intros Hx Hy. unfold set_key, Card_hash. split.
  - unfold card_id. by intros [= _ -> ->].
  - intros Hid. rewrite (valid_card_name x y Hx Hy Hid).
    unfold card_id in Hid. by injection Hid as -> ->.
Qed.
End py_set_facts.

Lemma NoDup_fmap_equiv {A B C} (f : A → B) (g : A → C) (l : list A) :
  (∀ x y, x ∈ l → y ∈ l → f x = f y ↔ g x = g y) →
  NoDup (f <$> l) ↔ NoDup (g <$> l).
Proof.
  induction l as [|a l IH]; intros Hfg; [split; intros; constructor|].
  rewrite !fmap_cons, !NoDup_cons, !list_elem_of_fmap.
  rewrite IH by (intros x y Hx Hy; apply Hfg; by right).
  assert ((∃ y, f a = f y ∧ y ∈ l) ↔ (∃ y, g a = g y ∧ y ∈ l)) as ->; [|done].
  split; intros (y & Hy & Hin); exists y; (split; [|done]);
    apply (Hfg a y); (done || by left || by right).
Qed.

Lemma NoDup_set_key_valid (str_hash : string → Z) (l : list Card) :
  Forall valid_card l →
  NoDup (set_key str_hash <$> l) ↔ NoDup (card_id <$> l).
Proof.
  intros Hv. apply NoDup_fmap_equiv. intros x y Hx Hy.
  rewrite Forall_forall in Hv. apply set_key_valid; auto.
Qed.

(** ** Hand construction *)

Lemma list_comp_Ok {A B} (f : A → result B) (xs : list A) (ys : list B) :
  list_comp f xs = Ok ys ↔ Forall2 (λ x y, f x = Ok y) xs ys.
Proof.
  revert ys. induction xs as [|x xs IH]; intros ys; simpl.
  - split; [intros [= <-]; constructor|by inversion 1].
  - destruct (f x) as [y|] eqn:Hy; simpl_bind.
    + destruct (list_comp f xs) as [ys'|]; simpl_bind.
      * split.
        -- intros [= <-]. constructor; [done|]. by apply IH.
        -- inversion 1 as [|? y' ? ys'' Hy' Hys]; subst.
           rewrite Hy in Hy'. injection Hy' as <-.
           apply IH in Hys as [= ->]. done.
      * split; [done|]. inversion 1 as [|? y' ? ys'' Hy' Hys]; subst.
        by apply IH in Hys.
    + split; [done|]. inversion 1; congruence.
Qed.


Lemma Hand_init_supplied (str_hash : string → Z) (arg : hand_arg) :
  Hand_init str_hash arg = Hand_init str_hash (ArgSeq (supplied arg)).
Proof. by destruct arg. Qed.

Lemma Hand_init_seq (str_hash : string → Z) (items : list item) (cs : list Card) :
  list_comp to_card items = Ok cs →
  Hand_init str_hash (ArgSeq items) =
    if bool_decide (length cs = 5%nat)
    then if bool_decide (length (py_set str_hash cs) = 5%nat)
         then Ok (mkHand cs) else Raise DuplicateCard
    else Raise InvalidHandSize.
Proof.
  intros Hcs. unfold Hand_init. rewrite Hcs. simpl_bind.
  destruct (bool_decide (length cs = 5%nat)); [|done]. simpl.
  destruct (bool_decide (length (py_set str_hash cs) = 5%nat)); done.
Qed.

Lemma Hand_init_Ok (str_hash : string → Z) (arg : hand_arg) (h : Hand) :
  Hand_init str_hash arg = Ok h ↔
  list_comp to_card (supplied arg) = Ok (cards h) ∧
  length (cards h) = 5%nat ∧
  NoDup (set_key str_hash <$> cards h).
Proof.
  rewrite Hand_init_supplied. split.
  - destruct (list_comp to_card (supplied arg)) as [cs|e] eqn:Hcs.
    + rewrite (Hand_init_seq _ _ _ Hcs).
      case_bool_decide as Hlen; [|done]. case_bool_decide as Hset; [|done].
      intros [= <-]. simpl. split_and!; [done..|].
      apply length_py_set. congruence.
    + unfold Hand_init. by rewrite Hcs.
  - intros (Hcs & Hlen & Hnd). rewrite (Hand_init_seq _ _ _ Hcs).
    apply length_py_set in Hnd.
    rewrite !bool_decide_eq_true_2 by congruence. by destruct h.
Qed.

Lemma Hand_init_length (str_hash : string → Z) (arg : hand_arg) (h : Hand) :
  Hand_init str_hash arg = Ok h → length (cards h) = 5%nat.
Proof. by intros (_ & ? & _)%Hand_init_Ok. Qed.

Lemma Hand_init_nonempty (str_hash : string → Z) (arg : hand_arg) (h : Hand) :
  Hand_init str_hash arg = Ok h → cards h ≠ [].
Proof. intros Hl%Hand_init_length. by destruct (cards h). Qed.

(** ** Evaluation of a five-card hand *)

Lemma Hand_eval_Ok (h : Hand) :
  length (cards h) = 5%nat →
  ∃ straight d n,
    is_consecutive h = Ok straight ∧
    (straight = true ↔ is_straight h) ∧
    first_by_counts h = Ok (d, n) ∧
    d ∈ ranks_of h ∧
    Hand_eval h = Ok (pick_category straight (flush_of h) (counts_of h), d).
Proof.
  intros Hlen.
  assert (cards h ≠ []) as Hne by (by destruct (cards h)).
  destruct (is_consecutive_spec h Hlen) as (straight & Hs & Hspec).
  destruct (first_by_counts_Ok h Hne) as (d & n & Hd & Hin).
  exists straight, d, n. split_and!; [done..|].
  by rewrite Hand_eval_unfold, Hs, Hd.
Qed.

Lemma is_consecutive_perm (h h' : Hand) :
  cards h ≡ₚ cards h' → is_consecutive h = is_consecutive h'.
Proof.
  intros Hp. unfold is_consecutive.
  by rewrite (sorted_Z_perm (rank <$> cards h) (rank <$> cards h'))
    by (by apply fmap_Permutation).
Qed.

Lemma Hand_eval_perm (h h' : Hand) :
  cards h ≡ₚ cards h' → Hand_eval h = Hand_eval h'.
Proof.
  intros Hp. rewrite !Hand_eval_unfold.
  rewrite (is_consecutive_perm h h' Hp).
  unfold first_by_counts, flush_of, counts_of, ranks_of.
  rewrite (Counter_perm (rank <$> cards h) (rank <$> cards h'))
    by (by apply fmap_Permutation).
  rewrite (list_to_set_perm_L (C:=gset ascii) (suit <$> cards h) (suit <$> cards h'))
    by (by apply fmap_Permutation).
  done.
Qed.

Lemma Forall2_perm {A B} (P : A → B → Prop) (xs xs' : list A) (ys : list B) :
  xs ≡ₚ xs' → Forall2 P xs ys → ∃ ys', Forall2 P xs' ys' ∧ ys ≡ₚ ys'.
Proof.
  intros Hp. revert ys.
  induction Hp as [|x xs xs' _ IH|x1 x2 xs|xs1 xs2 xs3 _ IH1 _ IH2]; intros ys Hf.
  - inversion Hf; subst. exists []. by split.
  - inversion Hf as [|? y ? ys0 Hy Hys]; subst.
    destruct (IH _ Hys) as (ys' & ? & ?). exists (y :: ys').
    split; [by constructor|by constructor].
  - inversion Hf as [|? y2 ? ys0 Hy2 Hys]; subst.
    inversion Hys as [|? y1 ? ys1 Hy1 Hys1]; subst.
    exists (y1 :: y2 :: ys1). split; [by repeat constructor|apply Permutation_swap].
  - destruct (IH1 _ Hf) as (ys2 & Hf2 & ?).
    destruct (IH2 _ Hf2) as (ys3 & ? & ?).
    exists ys3. split; [done|by etrans].
Qed.

(** * The claims *)

(** C1. For every hand the constructor accepts, [eval()] returns the category
    of the first row of the specification's table whose condition holds; in
    particular a hand that is a straight (five consecutive ranks, or the
    wheel) and a flush (one suit) is a "straight flush". *)
Theorem eval_priority_order (str_hash : string → Z) (arg : hand_arg) (h : Hand) :
  Hand_init str_hash arg = Ok h →
  ∃ cat d,
    Hand_eval h = Ok (cat, d) ∧
    first_match (category_table h) cat ∧
    (is_straight h → is_flush h → cat = "straight flush").
Proof.
  intros Hinit.
  pose proof (Hand_init_length _ _ _ Hinit) as Hlen.
  pose proof (Hand_init_nonempty _ _ _ Hinit) as Hne.
  destruct (Hand_eval_Ok h Hlen) as (straight & d & n & _ & Hs & _ & _ & Hev).
  exists (pick_category straight (flush_of h) (counts_of h)), d.
  split_and!; [done| |].
  - by apply pick_category_first_match.
  - intros ->%Hs ->%(flush_of_spec h Hne). done.
Qed.

Lemma eval_priority_order_witness :
  ∃ cat d,
    Hand_eval straight_flush2 = Ok (cat, d) ∧
    first_match (category_table straight_flush2) cat ∧
    (is_straight straight_flush2 → is_flush straight_flush2 →
     cat = "straight flush").
Proof.
  apply (eval_priority_order length_hash (ArgStr "6s 5s 4s 3s  2s")).
  vm_compute. reflexivity.
Defined.

(** C9. For every hand the constructor accepts, [eval()] returns a pair of a
    category (a key of the hierarchy table) and a tie-break value (the rank of
    one of the cards); no index is out of range: [is_consecutive] finds the
    first and the last of the rank list and the count-sorted list has a first
    item. *)
Theorem eval_total (str_hash : string → Z) (arg : hand_arg) (h : Hand) :
  Hand_init str_hash arg = Ok h →
  ∃ cat d straight first,
    Hand_eval h = Ok (cat, d) ∧
    is_consecutive h = Ok straight ∧
    first_by_counts h = Ok first ∧
    is_Some (hierarchy !! cat) ∧
    d ∈ ranks_of h.
Proof.
  intros Hlen%Hand_init_length.
  destruct (Hand_eval_Ok h Hlen) as (straight & d & n & Hs & _ & Hf & Hd & Hev).
  exists (pick_category straight (flush_of h) (counts_of h)), d, straight, (d, n).
  split_and!; [done..| |done].
  apply pick_category_hierarchy.
Qed.

Lemma eval_total_witness :
  ∃ cat d straight first,
    Hand_eval straight3 = Ok (cat, d) ∧
    is_consecutive straight3 = Ok straight ∧
    first_by_counts straight3 = Ok first ∧
    is_Some (hierarchy !! cat) ∧
    d ∈ ranks_of straight3.
Proof.
  apply (eval_total length_hash (ArgStr "5c 4c 3d 2h Ah")).
  vm_compute. reflexivity.
Defined.

(** C6. If the constructor accepts a sequence of cards or tokens, it accepts
    every permutation of it, and [eval()] returns the same pair on the two
    hands. *)
Theorem eval_permutation_invariant
    (str_hash : string → Z) (items items' : list item) (h : Hand) :
  items ≡ₚ items' →
  Hand_init str_hash (ArgSeq items) = Ok h →
  ∃ h', Hand_init str_hash (ArgSeq items') = Ok h' ∧
        cards h' ≡ₚ cards h ∧
        Hand_eval h' = Hand_eval h.
Proof.
  intros Hp (Hcs & Hlen & Hnd)%Hand_init_Ok. simpl in Hcs.
  apply list_comp_Ok in Hcs.
  destruct (Forall2_perm _ _ _ _ Hp Hcs) as (cs' & Hcs' & Hperm).
  exists (mkHand cs'). split_and!.
  - apply Hand_init_Ok. simpl. split_and!.
    + by apply list_comp_Ok.
    + by rewrite <-Hperm.
    + by rewrite <-Hperm.
  - done.
  - by apply Hand_eval_perm.
Qed.

Lemma eval_permutation_invariant_witness :
  ∃ h', Hand_init length_hash
          (ArgSeq [ItemStr "Ah"; ItemStr "2h"; ItemStr "3d"; ItemStr "4c";
                   ItemStr "5c"]) = Ok h' ∧
        cards h' ≡ₚ cards straight3 ∧
        Hand_eval h' = Hand_eval straight3.
Proof.
  apply (eval_permutation_invariant length_hash
           [ItemStr "5c"; ItemStr "4c"; ItemStr "3d"; ItemStr "2h"; ItemStr "Ah"]).
  - symmetry. apply (reverse_Permutation
             [ItemStr "5c"; ItemStr "4c"; ItemStr "3d"; ItemStr "2h"; ItemStr "Ah"]).
  - vm_compute. reflexivity.
Defined.

Lemma list_comp_tokens (l : list string) :
  list_comp to_card (ItemStr <$> l) = list_comp Card_init l.
Proof.
  induction l as [|s l IH]; [done|].
  rewrite fmap_cons. cbn [list_comp to_card]. by rewrite IH.
Qed.


Lemma list_comp_valid (items : list item) (cs : list Card) :
  Forall (λ i, ∀ c, i = ItemCard c → valid_card c) items →
  list_comp to_card items = Ok cs →
  Forall valid_card cs.
Proof.
  intros Hitems Hcs%list_comp_Ok.
  induction Hcs as [|i c items cs Hi _ IH]; [constructor|].
  apply Forall_cons in Hitems as [Hv Hitems]. constructor; [|by apply IH].
  destruct i as [c'|s]; simpl in Hi.
  - injection Hi as <-. by apply Hv.
  - by eapply Card_init_valid.
Qed.

Lemma Hand_init_eval (str_hash : string → Z) (arg : hand_arg) (h : Hand) :
  Hand_init str_hash arg = Ok h → ∃ e, Hand_eval h = Ok e.
Proof.
  intros Hlen%Hand_init_length.
  destruct (Hand_eval_Ok h Hlen) as (? & ? & ? & _ & _ & _ & _ & Hev).
  by eexists.
Qed.




(** C8. On a sequence that stands for valid cards the constructor raises the
    size assertion when there are not exactly five of them, raises the
    distinctness assertion when there are five and two of them have the same
    rank and suit, and otherwise returns the hand of these five cards. *)
Theorem Hand_init_validation
    (str_hash : string → Z) (items : list item) (cs : list Card) :
  list_comp to_card items = Ok cs →
  Forall valid_card cs →
  (length cs ≠ 5%nat →
   Hand_init str_hash (ArgSeq items) = Raise InvalidHandSize) ∧
  (length cs = 5%nat → ¬ NoDup (card_id <$> cs) →
   Hand_init str_hash (ArgSeq items) = Raise DuplicateCard) ∧
  (length cs = 5%nat → NoDup (card_id <$> cs) →
   Hand_init str_hash (ArgSeq items) = Ok (mkHand cs)).
Proof.
  intros Hcs Hv. rewrite (Hand_init_seq _ _ _ Hcs).
  pose proof (NoDup_set_key_valid str_hash cs Hv) as Hkey.
  pose proof (length_py_set str_hash cs) as Hset.
  split_and!.
  - intros Hlen. by rewrite bool_decide_eq_false_2.
  - intros Hlen Hdup. rewrite bool_decide_eq_true_2 by done.
    rewrite bool_decide_eq_false_2; [done|].
    intros Hs. apply Hdup, Hkey, Hset. congruence.
  - intros Hlen Hnd. rewrite bool_decide_eq_true_2 by done.
    rewrite bool_decide_eq_true_2; [done|].
    rewrite <-Hlen. by apply Hset, Hkey.
Qed.

Lemma Hand_init_validation_witness :
  Hand_init length_hash (ArgSeq (ItemStr <$> ["5s"; "5d"; "5s"; "5h"; "Ah"])) =
    Raise DuplicateCard.
Proof.
  refine (proj1 (proj2 (Hand_init_validation length_hash
            (ItemStr <$> ["5s"; "5d"; "5s"; "5h"; "Ah"])
            [card "5s" 5 "s"; card "5d" 5 "d"; card "5s" 5 "s";
             card "5h" 5 "h"; card "Ah" 14 "h"] _ _)) _ _).
  - vm_compute. reflexivity.
  - repeat constructor.
  - reflexivity.
  - intros Hnd. apply NoDup_cons in Hnd as [Hnin _]. apply Hnin.
    right. left.
Defined.

Lemma card_key_canonical (c1 c2 : Card) :
  key_le pair_leb card_key c1 c2 → canonical_before c1 c2.
Proof.
  unfold key_le, pair_leb, card_key, canonical_before. simpl. lia.
Qed.

Lemma sorted_hand_canonical (l : list Card) :
  canonical_order (sorted_by pair_leb card_key l).
Proof.
  apply (StronglySorted_mono (key_le pair_leb card_key)).
  - apply card_key_canonical.
  - apply sorted_by_sorted; [apply pair_leb_total|apply pair_leb_trans].
Qed.

(** C5, as stated, fails: the hand of the [__eq__] docstring is stored in
    ascending rank, as it was written. *)
Lemma stored_cards_not_canonical :
  Hand_init length_hash (ArgStr "2d 3d 4d 5d 6d") = Ok lt_h1 ∧
  ¬ canonical_order (cards lt_h1).
Proof.
  split; [by vm_compute|].
  intros Hs. apply StronglySorted_inv in Hs as [_ Hall].
  apply Forall_cons in Hall as [Hb _].
  unfold canonical_before in Hb. simpl in Hb. lia.
Qed.

(** C5, amended. The hand stores the cards the supplied items stand for, in
    the order supplied.  The canonical order (descending rank, then descending
    suit character code) is that of the sorted copy which [__repr__] and
    [eval()] compute, a permutation of the stored cards. *)
Theorem Hand_cards_as_supplied (str_hash : string → Z) (arg : hand_arg) (h : Hand) :
  Hand_init str_hash arg = Ok h →
  list_comp to_card (supplied arg) = Ok (cards h) ∧
  canonical_order (sorted_by pair_leb card_key (cards h)) ∧
  sorted_by pair_leb card_key (cards h) ≡ₚ cards h.
Proof.
  intros (Hcs & _ & _)%Hand_init_Ok. split_and!.
  - done.
  - apply sorted_hand_canonical.
  - apply sorted_hand_perm.
Qed.

Lemma Hand_cards_as_supplied_witness :
  list_comp to_card (supplied (ArgStr "2d 3d 4d 5d 6d")) = Ok (cards lt_h1) ∧
  canonical_order (sorted_by pair_leb card_key (cards lt_h1)) ∧
  sorted_by pair_leb card_key (cards lt_h1) ≡ₚ cards lt_h1.
Proof.
  apply (Hand_cards_as_supplied length_hash (ArgStr "2d 3d 4d 5d 6d") lt_h1).
  vm_compute. reflexivity.
Defined.

Lemma empty_token_invalid : ¬ ∃ r v s, valid_token "" r v s.
Proof.
  intros (r & v & s & Hn & _). by destruct r.
Qed.

(** C7 (defect of the program). The empty token is not a valid token, yet
    construction does not fail one of the two assertions on it: [name[-1]]
    raises the index error before either is reached.  Every other token that
    is not valid fails an assertion, also the one-character token "s", whose
    rank text is empty as well. *)
Theorem Card_init_empty_token :
  (¬ ∃ r v s, valid_token "" r v s) ∧
  Card_init "" = Raise (IndexError "string index out of range") ∧
  ¬ InvalidCard "" (IndexError "string index out of range") ∧
  Card_init "s" = Raise (AssertionError "Bad rank: s") ∧
  InvalidCard "s" (AssertionError "Bad rank: s").
Proof.
  split_and!; [apply empty_token_invalid|done| |done|by left].
  by intros [?|?].
Qed.

(** X14. Construction succeeds exactly on the valid tokens (a rank text of
    the table followed by one of the four suit characters), with the rank the
    table gives and the final character for suit; every other token that is
    not empty fails one of the two assertions. *)
Theorem Card_init_spec (name : string) :
  (∀ c, Card_init name = Ok c ↔
        ∃ r v s, valid_token name r v s ∧ c = mkCard name v s) ∧
  ((¬ ∃ r v s, valid_token name r v s) → name ≠ "" →
   ∃ e, Card_init name = Raise e ∧ InvalidCard name e).
Proof.
  split.
  - apply Card_init_Ok.
  - intros Hinv Hne. destruct (Card_init name) as [c|e] eqn:Hc.
    + exfalso. apply Hinv. apply Card_init_Ok in Hc as (r & v & s & ? & _).
      by exists r, v, s.
    + exists e. split; [done|].
      by destruct (Card_init_Raise name e Hc) as [[? _]|[_ ?]].
Qed.

Lemma Card_init_spec_witness :
  ∃ e, Card_init "Kx" = Raise e ∧ InvalidCard "Kx" e.
Proof.
  refine (proj2 (Card_init_spec "Kx") _ _).
  - intros (r & v & s & Hn & _ & Hs).
    pose proof (proj1 (str_app_last r s)) as Hl. rewrite <-Hn in Hl.
    injection Hl as <-. unfold suit_chars in Hs.
    rewrite !elem_of_cons, elem_of_nil in Hs. by destruct_or!.
  - done.
Defined.

(** ** Comparison *)

Lemma Hand_lt_NameError (A B : Hand) :
  Hand_lt A B = Raise (NameError "global name 'hierarchy' is not defined").
Proof. reflexivity. Qed.

(** C3 (defect of the program). [__lt__] reads the table through the bare
    name [hierarchy], which no module-level binding provides, so it raises
    [NameError] for every pair of hands; on the two straight flushes of its
    own docstring it does not return [True]. *)
Theorem Hand_lt_always_raises :
  Hand_init length_hash (ArgStr "2d 3d 4d 5d 6d") = Ok lt_h1 ∧
  Hand_init length_hash (ArgStr "3d 4d 5d 6d 7d") = Ok lt_h2 ∧
  Hand_eval lt_h1 = Ok ("straight flush", 6) ∧
  Hand_eval lt_h2 = Ok ("straight flush", 7) ∧
  ∀ A B, Hand_lt A B =
         Raise (NameError "global name 'hierarchy' is not defined").
Proof.
  split_and!; [by vm_compute..|]. apply Hand_lt_NameError.
Qed.

(** C2 (defect of the program). The wheel is classified "straight", but its
    tie-break value is 14, the ace; [<] and [>] raise [NameError], and [<=]
    puts the six-high straight below the wheel. *)
Theorem wheel_against_six_high :
  Hand_init length_hash (ArgStr "5c 4c 3d 2h Ah") = Ok straight3 ∧
  Hand_init length_hash (ArgStr "6s 5c 4c 3d 2h") = Ok straight2 ∧
  Hand_eval straight3 = Ok ("straight", 14) ∧
  Hand_eval straight2 = Ok ("straight", 6) ∧
  Hand_lt straight3 straight2 =
    Raise (NameError "global name 'hierarchy' is not defined") ∧
  Hand_gt straight2 straight3 =
    Raise (NameError "global name 'hierarchy' is not defined") ∧
  Hand_le straight3 straight2 = Ok false ∧
  Hand_le straight2 straight3 = Ok true.
Proof. split_and!; by vm_compute. Qed.

(** C4 (defect of the program). On a flush and a high-card hand none of
    [==], [<], [>] returns [True] (the last two raise), while [<=] returns
    [True]: it compares the category names as strings, and "flush" comes
    before "high card". *)
Theorem comparisons_inconsistent :
  Hand_init length_hash (ArgStr "9s 8s 6s 4s 2s") = Ok flush1 ∧
  Hand_init length_hash (ArgStr "As 7d 5c 4d 3h") = Ok none1 ∧
  Hand_eval flush1 = Ok ("flush", 9) ∧
  Hand_eval none1 = Ok ("high card", 14) ∧
  Hand_eq flush1 none1 = Ok false ∧
  Hand_lt flush1 none1 =
    Raise (NameError "global name 'hierarchy' is not defined") ∧
  Hand_gt flush1 none1 =
    Raise (NameError "global name 'hierarchy' is not defined") ∧
  Hand_le flush1 none1 = Ok true ∧
  Hand_le none1 flush1 = Ok false.
Proof. split_and!; by vm_compute. Qed.

(** * Further properties of the module *)

(** ** Cards *)

Lemma rank_table_bounds (r : string) (v : Z) :
  (r, v) ∈ rank_table → 2 ≤ v ≤ 14.
Proof.
  unfold rank_table. rewrite !elem_of_cons, elem_of_nil.
  intros H. destruct_or!; simplify_eq; lia.
Qed.

(** X1. A constructed card keeps its token as name, so [str()] gives the
    token back and building a card from that string gives the same card; its
    rank lies between 2 and 14 and its suit is one of the four characters. *)
Theorem Card_init_invariant (s : string) (c : Card) :
  Card_init s = Ok c →
  Card_str c = s ∧
  Card_repr c = "<Card " +:+ s +:+ ">" ∧
  Card_init (Card_str c) = Ok c ∧
  2 ≤ rank c ≤ 14 ∧
  suit c ∈ suit_chars.
Proof.
  intros Hc. pose proof (Card_init_name s c Hc) as Hn.
  apply Card_init_Ok in Hc as Hv. destruct Hv as (r & v & a & (_ & Hr & Ha) & ->).
  apply rank_table_bounds in Hr.
  unfold Card_str, Card_repr. cbn [name rank suit] in *.
  split_and!; (done || lia).
Qed.

Lemma Card_init_invariant_witness :
  Card_str (card "10d" 10 "d") = "10d" ∧
  Card_repr (card "10d" 10 "d") = "<Card " +:+ "10d" +:+ ">" ∧
  Card_init (Card_str (card "10d" 10 "d")) = Ok (card "10d" 10 "d") ∧
  2 ≤ rank (card "10d" 10 "d") ≤ 14 ∧
  suit (card "10d" 10 "d") ∈ suit_chars.
Proof. apply (Card_init_invariant "10d"). vm_compute. reflexivity. Defined.

Lemma Card_eq_card_id (x y : Card) : Card_eq x y = true ↔ card_id x = card_id y.
Proof.
  unfold Card_eq, card_id. rewrite andb_true_iff, !bool_decide_eq_true.
  split; [by intros [-> ->]|by intros [= -> ->]].
Qed.

(** X2. Two constructed cards are equal for [__eq__] exactly when they were
    built from the same token, and then they are the same card; equal cards
    have equal hashes, whatever the string hash. *)
Theorem Card_eq_same_token
    (str_hash : string → Z) (s1 s2 : string) (c1 c2 : Card) :
  Card_init s1 = Ok c1 →
  Card_init s2 = Ok c2 →
  (Card_eq c1 c2 = true ↔ s1 = s2) ∧
  (Card_eq c1 c2 = true → c1 = c2) ∧
  (Card_eq c1 c2 = true → Card_hash str_hash c1 = Card_hash str_hash c2).
Proof.
  intros H1 H2.
  assert (Card_eq c1 c2 = true → s1 = s2) as Hs.
  { intros Hid%Card_eq_card_id.
    rewrite <-(Card_init_name _ _ H1), <-(Card_init_name _ _ H2).
    apply valid_card_name; [by eapply Card_init_valid..|done]. }
  assert (s1 = s2 → c1 = c2) as Hc by (intros ->; congruence).
  split_and!.
  - split; [done|]. intros ->%Hc. apply Card_eq_card_id. done.
  - auto.
  - intros ->%Hs%Hc. done.
Qed.

Lemma Card_eq_same_token_witness :
  (Card_eq (card "Ks" 13 "s") (card "Kh" 13 "h") = true ↔ "Ks" = "Kh") ∧
  (Card_eq (card "Ks" 13 "s") (card "Kh" 13 "h") = true →
   card "Ks" 13 "s" = card "Kh" 13 "h") ∧
  (Card_eq (card "Ks" 13 "s") (card "Kh" 13 "h") = true →
   Card_hash length_hash (card "Ks" 13 "s") =
   Card_hash length_hash (card "Kh" 13 "h")).
Proof.
  apply (Card_eq_same_token length_hash "Ks" "Kh"); vm_compute; reflexivity.
Defined.

(** ** Errors of the hand constructor *)

Lemma list_comp_app_Raise {A B} (f : A → result B)
    (pre : list A) (x : A) (post : list A) (ys : list B) (e : exn) :
  list_comp f pre = Ok ys → f x = Raise e →
  list_comp f (pre ++ x :: post) = Raise e.
Proof.
  revert ys. induction pre as [|a pre IH]; intros ys Hpre Hx; simpl.
  - by rewrite Hx.
  - simpl in Hpre. destruct (f a) as [b|]; [|done]. simpl_bind.
    cbn [mbind result_bind] in Hpre. destruct (list_comp f pre) as [ys'|] eqn:Hys; [|done].
    by rewrite (IH ys').
Qed.

Lemma list_comp_Raise {A B} (f : A → result B) (xs : list A) (e : exn) :
  list_comp f xs = Raise e → ∃ x, x ∈ xs ∧ f x = Raise e.
Proof.
  induction xs as [|x xs IH]; [done|]. simpl.
  destruct (f x) as [y|e'] eqn:Hx; simpl_bind.
  - destruct (list_comp f xs) as [ys|e'']; simpl_bind; [done|].
    intros [= ->]. destruct IH as (x' & ? & ?); [done|].
    exists x'. split; [by right|done].
  - intros [= ->]. exists x. split; [left|done].
Qed.

(** X3. A token that is not a card makes the constructor raise that token's
    own error, whatever the number of items and whatever comes after it: the
    cards are built before the size and the distinctness assertions are
    tried. *)
Theorem Hand_init_card_error
    (str_hash : string → Z) (pre post : list item) (x : item)
    (cs : list Card) (e : exn) :
  list_comp to_card pre = Ok cs →
  to_card x = Raise e →
  Hand_init str_hash (ArgSeq (pre ++ x :: post)) = Raise e.
Proof.
  intros Hpre Hx. unfold Hand_init.
  by rewrite (list_comp_app_Raise to_card pre x post cs e Hpre Hx).
Qed.

Lemma Hand_init_card_error_witness :
  Hand_init length_hash (ArgSeq ([ItemStr "As"] ++ ItemStr "1s" :: [ItemStr "As"])) =
    Raise (AssertionError "Bad rank: 1s").
Proof.
  apply (Hand_init_card_error length_hash [ItemStr "As"] [ItemStr "As"]
           (ItemStr "1s") [card "As" 14 "s"]); vm_compute; reflexivity.
Defined.

Lemma rev_app_nonempty (s1 s2 : string) : s2 ≠ "" → String.rev_app s1 s2 ≠ "".
Proof. revert s2. induction s1 as [|a s1 IH]; intros s2 Hs; simpl; [done|]. by apply IH. Qed.

Lemma words_go_nonempty (cur : option string) (s : string) :
  (∀ c, cur = Some c → c ≠ "") →
  Forall (λ w, w ≠ "") (String.words_go cur s).
Proof.
  revert cur. induction s as [|a s IH]; intros cur Hcur; simpl.
  - destruct cur as [c|]; simpl; [|constructor].
    constructor; [|constructor]. unfold String.rev.
    specialize (Hcur c eq_refl). destruct c as [|b c]; [done|].
    simpl. by apply rev_app_nonempty.
  - destruct (Ascii.is_space a).
    + apply Forall_app. split; [|by apply IH].
      destruct cur as [c|]; simpl; [|constructor].
      constructor; [|constructor]. unfold String.rev.
      specialize (Hcur c eq_refl). destruct c as [|b c]; [done|].
      simpl. by apply rev_app_nonempty.
    + apply IH. intros c [= <-]. by destruct cur.
Qed.

Lemma split_nonempty (s : string) : Forall (λ w, w ≠ "") (split s).
Proof. apply words_go_nonempty. done. Qed.

(** X4. Called with one string, the constructor fails only through an
    assertion: the size or the distinctness assertion, or the rank or suit
    assertion of one of the tokens.  The index error of the empty token
    cannot occur, since [split()] yields no empty token. *)
Theorem Hand_init_str_errors (str_hash : string → Z) (s : string) (e : exn) :
  Hand_init str_hash (ArgStr s) = Raise e →
  e = InvalidHandSize ∨ e = DuplicateCard ∨
  ∃ t, t ∈ split s ∧ t ≠ "" ∧ InvalidCard t e.
Proof.
  rewrite Hand_init_supplied. cbn [supplied].
  destruct (list_comp to_card (ItemStr <$> split s)) as [cs|e'] eqn:Hcs.
  - rewrite (Hand_init_seq _ _ _ Hcs).
    repeat case_bool_decide; intros He; simplify_eq; auto.
  - unfold Hand_init. rewrite Hcs. simpl_bind. intros He. simplify_eq.
    right. right. rewrite list_comp_tokens in Hcs.
    apply list_comp_Raise in Hcs as (t & Ht & He). exists t.
    pose proof (split_nonempty s) as Hne. rewrite Forall_forall in Hne.
    specialize (Hne t Ht).
    destruct (Card_init_Raise t e He) as [[? _]|[_ ?]]; done.
Qed.

Lemma Hand_init_str_errors_witness :
  AssertionError "Bad suit: 4x" = InvalidHandSize ∨
  AssertionError "Bad suit: 4x" = DuplicateCard ∨
  ∃ t, t ∈ split "As 4x" ∧ t ≠ "" ∧ InvalidCard t (AssertionError "Bad suit: 4x").
Proof.
  apply (Hand_init_str_errors length_hash "As 4x"). vm_compute. reflexivity.
Defined.

(** ** Evaluation outside the constructor's guarantee *)

Lemma last_nonempty {A} (l : list A) : l ≠ [] → is_Some (last l).
Proof.
  induction l as [|x [|y l] IH]; [done|by eexists|]. intros _. by apply IH.
Qed.

(** X5. [is_consecutive()] and [eval()] raise the index error exactly on a
    hand without cards; on a hand with at least one card, of whatever size,
    they return. *)
Theorem Hand_eval_raises_iff_empty (h : Hand) :
  (cards h = [] →
   is_consecutive h = Raise (IndexError "list index out of range") ∧
   Hand_eval h = Raise (IndexError "list index out of range")) ∧
  (cards h ≠ [] →
   (∃ b, is_consecutive h = Ok b) ∧ ∃ cat d, Hand_eval h = Ok (cat, d)).
Proof.
  split.
  - intros Hnil. unfold Hand_eval, is_consecutive. by rewrite Hnil.
  - intros Hne.
    assert (∃ b, is_consecutive h = Ok b) as [b Hb].
    { unfold is_consecutive.
      assert (sorted_by Z.leb id (rank <$> cards h) ≠ []) as Hs.
      { intros Hnil%(f_equal length).
        rewrite length_sorted_by, length_fmap in Hnil. by destruct (cards h). }
      destruct (last_nonempty _ Hs) as [hi Hhi].
      unfold py_last. rewrite Hhi.
      destruct (sorted_by Z.leb id (rank <$> cards h)) as [|lo l]; [done|].
      cbn [py_index lookup list_lookup mbind result_bind].
      repeat case_bool_decide; by eexists. }
    split; [by exists b|].
    destruct (first_by_counts_Ok h Hne) as (d & n & Hd & _).
    rewrite Hand_eval_unfold, Hb, Hd. simpl_bind. by eexists _, _.
Qed.

Lemma Hand_eval_raises_iff_empty_witness :
  (∃ b, is_consecutive (mkHand [card "As" 14 "s"]) = Ok b) ∧
  ∃ cat d, Hand_eval (mkHand [card "As" 14 "s"]) = Ok (cat, d).
Proof.
  apply (proj2 (Hand_eval_raises_iff_empty (mkHand [card "As" 14 "s"]))).
  discriminate.
Defined.

(** ** The tie-break value *)

(** X6. The second component [eval()] returns is the rank of a card of the
    hand that occurs at least as often as every other rank, and that is the
    highest among the ranks occurring that often. *)
Theorem eval_determining (h : Hand) (cat : string) (d : Z) :
  Hand_eval h = Ok (cat, d) →
  (0 < rank_count h d)%nat ∧
  ∀ r, (rank_count h r < rank_count h d)%nat ∨
       (rank_count h r = rank_count h d ∧ r ≤ d).
Proof.
  rewrite Hand_eval_unfold.
  destruct (is_consecutive h) as [straight|]; [|done]. simpl_bind.
  destruct (first_by_counts h) as [[d' n]|] eqn:Hf; [|done]. simpl_bind.
  intros [= _ ->]. unfold first_by_counts, py_index in Hf.
  pose proof (sorted_by_perm pair_leb count_key (map_to_list (counts_of h))) as Hp.
  pose proof (sorted_by_sorted pair_leb count_key pair_leb_total pair_leb_trans
                (map_to_list (counts_of h))) as Hs.
  destruct (sorted_by pair_leb count_key (map_to_list (counts_of h)))
    as [|first l]; [done|].
  injection Hf as ->.
  assert (counts_of h !! d = Some n) as Hd.
  { apply elem_of_map_to_list. rewrite <-Hp. left. }
  apply counts_of_lookup in Hd as [Hn Hd].
  split; [lia|]. intros r.
  destruct (decide (rank_count h r = 0%nat)) as [->|Hr]; [left; lia|].
  assert ((r, Z.of_nat (rank_count h r)) ∈ (d, n) :: l) as Hin.
  { rewrite Hp. apply elem_of_map_to_list, counts_of_lookup. lia. }
  apply elem_of_cons in Hin as [[= -> _]|Hin]; [right; lia|].
  apply StronglySorted_inv in Hs as [_ Hall].
  rewrite Forall_forall in Hall. specialize (Hall _ Hin).
  unfold key_le, pair_leb, count_key in Hall. simpl in Hall. lia.
Qed.

Lemma eval_determining_witness :
  (0 < rank_count straight3 14)%nat ∧
  ∀ r, (rank_count straight3 r < rank_count straight3 14)%nat ∨
       (rank_count straight3 r = rank_count straight3 14 ∧ r ≤ 14).
Proof.
  apply (eval_determining straight3 "straight" 14). vm_compute. reflexivity.
Defined.

(** ** [==], [!=], [<=] and [>=] on constructed hands *)

Lemma ltb_leb (s1 s2 : string) :
  String.ltb s1 s2 = true ↔ String.le s1 s2 ∧ s1 ≠ s2.
Proof.
  unfold String.le, String.ltb, String.leb.
  destruct (String.compare s1 s2) eqn:Hc; simpl.
  - apply String.compare_eq_iff in Hc. split; [done|]. by intros [_ ?].
  - split; [|done]. intros _. split; [done|]. intros ->.
    pose proof (String.compare_antisym s2 s2) as Ha. by rewrite Hc in Ha.
  - split; [done|]. by intros [[] _].
Qed.

Lemma tuple_le_refl (a : string * Z) : tuple_le a a = true.
Proof. unfold tuple_le. rewrite bool_decide_eq_true_2 by done. lia. Qed.

Lemma tuple_le_total (a b : string * Z) :
  tuple_le a b = true ∨ tuple_le b a = true.
Proof.
  unfold tuple_le. destruct a as [s1 d1], b as [s2 d2]. simpl.
  repeat case_bool_decide; try congruence; [lia|].
  rewrite !ltb_leb. destruct (total String.le s1 s2); [left|right]; done.
Qed.

Lemma tuple_le_trans (a b c : string * Z) :
  tuple_le a b = true → tuple_le b c = true → tuple_le a c = true.
Proof.
  unfold tuple_le. destruct a as [s1 d1], b as [s2 d2], c as [s3 d3]. simpl.
  repeat case_bool_decide; subst; try done; rewrite ?ltb_leb; try lia.
  - intros [H12 _] [H21 _]. exfalso.
    by pose proof (anti_symm String.le _ _ H12 H21).
  - intros [H12 _] [H23 _]. split; [by etrans|done].
Qed.

Lemma tuple_le_antisym (a b : string * Z) :
  tuple_le a b = true → tuple_le b a = true → a = b.
Proof.
  unfold tuple_le. destruct a as [s1 d1], b as [s2 d2]. simpl.
  repeat case_bool_decide; subst; try done.
  - intros. f_equal. lia.
  - rewrite !ltb_leb. intros [H12 _] [H21 _].
    by pose proof (anti_symm String.le _ _ H12 H21).
Qed.

(** X7. On constructed hands [==] and [!=] return booleans that negate each
    other; [==] is true exactly when [eval()] gives the same pair, so it is
    reflexive, symmetric and transitive, and it holds between two hands whose
    cards are a permutation of one another. *)
Theorem Hand_eq_equivalence
    (str_hash : string → Z) (a1 a2 a3 : hand_arg) (h1 h2 h3 : Hand) :
  Hand_init str_hash a1 = Ok h1 →
  Hand_init str_hash a2 = Ok h2 →
  Hand_init str_hash a3 = Ok h3 →
  (∃ b, Hand_eq h1 h2 = Ok b ∧ Hand_ne h1 h2 = Ok (negb b) ∧
        (b = true ↔ Hand_eval h1 = Hand_eval h2)) ∧
  Hand_eq h1 h1 = Ok true ∧
  Hand_eq h2 h1 = Hand_eq h1 h2 ∧
  (Hand_eq h1 h2 = Ok true → Hand_eq h2 h3 = Ok true →
   Hand_eq h1 h3 = Ok true) ∧
  (cards h1 ≡ₚ cards h2 → Hand_eq h1 h2 = Ok true).
Proof.
  intros [e1 H1]%Hand_init_eval [e2 H2]%Hand_init_eval [e3 H3]%Hand_init_eval.
  split_and!.
  - exists (bool_decide (e1 = e2)). unfold Hand_eq, Hand_ne.
    rewrite H1, H2. simpl_bind. split_and!; [done| |].
    + f_equal. by repeat case_bool_decide.
    + rewrite bool_decide_eq_true. split; congruence.
  - unfold Hand_eq. rewrite H1. simpl_bind. by rewrite bool_decide_eq_true_2.
  - unfold Hand_eq. rewrite H1, H2. simpl_bind. f_equal.
    repeat case_bool_decide; congruence.
  - unfold Hand_eq. rewrite H1, H2, H3. simpl_bind.
    intros [= ->%bool_decide_eq_true] [= ->%bool_decide_eq_true].
    by rewrite bool_decide_eq_true_2.
  - intros Hp. unfold Hand_eq. rewrite <-(Hand_eval_perm h1 h2 Hp), H1.
    simpl_bind. by rewrite bool_decide_eq_true_2.
Qed.

Lemma Hand_eq_equivalence_witness :
  (∃ b, Hand_eq lt_h1 lt_h2 = Ok b ∧ Hand_ne lt_h1 lt_h2 = Ok (negb b) ∧
        (b = true ↔ Hand_eval lt_h1 = Hand_eval lt_h2)) ∧
  Hand_eq lt_h1 lt_h1 = Ok true ∧
  Hand_eq lt_h2 lt_h1 = Hand_eq lt_h1 lt_h2 ∧
  (Hand_eq lt_h1 lt_h2 = Ok true → Hand_eq lt_h2 flush1 = Ok true →
   Hand_eq lt_h1 flush1 = Ok true) ∧
  (cards lt_h1 ≡ₚ cards lt_h2 → Hand_eq lt_h1 lt_h2 = Ok true).
Proof.
  apply (Hand_eq_equivalence length_hash (ArgStr "2d 3d 4d 5d 6d")
           (ArgStr "3d 4d 5d 6d 7d") (ArgStr "9s 8s 6s 4s 2s"));
    vm_compute; reflexivity.
Defined.

(** X8. On constructed hands [<=] returns a boolean and is a total preorder
    (reflexive, transitive, and one of [a <= b], [b <= a] holds) whose two-way
    part is [==]; [>=] is [<=] with the operands exchanged. *)
Theorem Hand_le_total_preorder
    (str_hash : string → Z) (a1 a2 a3 : hand_arg) (h1 h2 h3 : Hand) :
  Hand_init str_hash a1 = Ok h1 →
  Hand_init str_hash a2 = Ok h2 →
  Hand_init str_hash a3 = Ok h3 →
  (∃ b, Hand_le h1 h2 = Ok b ∧ Hand_ge h2 h1 = Ok b) ∧
  Hand_le h1 h1 = Ok true ∧
  (Hand_le h1 h2 = Ok true ∨ Hand_le h2 h1 = Ok true) ∧
  (Hand_le h1 h2 = Ok true → Hand_le h2 h3 = Ok true →
   Hand_le h1 h3 = Ok true) ∧
  (Hand_le h1 h2 = Ok true ∧ Hand_le h2 h1 = Ok true ↔
   Hand_eq h1 h2 = Ok true).
Proof.
  intros [e1 H1]%Hand_init_eval [e2 H2]%Hand_init_eval [e3 H3]%Hand_init_eval.
  unfold Hand_ge, Hand_le, Hand_eq. rewrite H1, H2, H3. simpl_bind.
  split_and!.
  - by eexists.
  - by rewrite tuple_le_refl.
  - destruct (tuple_le_total e1 e2) as [->| ->]; auto.
  - intros [= H12] [= H23]. by rewrite (tuple_le_trans e1 e2 e3).
  - split.
    + intros [[= H12] [= H21]].
      by rewrite bool_decide_eq_true_2 by (by apply tuple_le_antisym).
    + intros [= ->%bool_decide_eq_true]. by rewrite tuple_le_refl.
Qed.

Lemma Hand_le_total_preorder_witness :
  (∃ b, Hand_le lt_h1 lt_h2 = Ok b ∧ Hand_ge lt_h2 lt_h1 = Ok b) ∧
  Hand_le lt_h1 lt_h1 = Ok true ∧
  (Hand_le lt_h1 lt_h2 = Ok true ∨ Hand_le lt_h2 lt_h1 = Ok true) ∧
  (Hand_le lt_h1 lt_h2 = Ok true → Hand_le lt_h2 flush1 = Ok true →
   Hand_le lt_h1 flush1 = Ok true) ∧
  (Hand_le lt_h1 lt_h2 = Ok true ∧ Hand_le lt_h2 lt_h1 = Ok true ↔
   Hand_eq lt_h1 lt_h2 = Ok true).
Proof.
  apply (Hand_le_total_preorder length_hash (ArgStr "2d 3d 4d 5d 6d")
           (ArgStr "3d 4d 5d 6d 7d") (ArgStr "9s 8s 6s 4s 2s"));
    vm_compute; reflexivity.
Defined.

(** ** Display *)

Lemma ord_inj (a b : ascii) : ord a = ord b → a = b.
Proof.
  unfold ord. intros H%(inj Z.of_N).
  by rewrite <-(ascii_N_embedding a), <-(ascii_N_embedding b), H.
Qed.

Lemma pair_leb_antisym (p q : Z * Z) :
  pair_leb p q = true → pair_leb q p = true → p = q.
Proof.
  unfold pair_leb. destruct p, q. simpl. intros. f_equal; lia.
Qed.

Lemma valid_card_key_inj (x y : Card) :
  valid_card x → valid_card y → card_key x = card_key y → x = y.
Proof.
  intros Hx Hy [= Hr Hs].
  assert (ord (suit x) = ord (suit y)) as Hs'%ord_inj by lia.
  assert (rank x = rank y) as Hr' by lia.
  assert (name x = name y) as Hn.
  { apply valid_card_name; [done..|]. unfold card_id. congruence. }
  destruct x, y. simpl in *. congruence.
Qed.

(** X9. What [__repr__] displays does not depend on the order in which valid
    cards are stored: the sorted copy of a permuted hand is the same list. *)
Theorem Hand_repr_permutation (h h' : Hand) :
  Forall valid_card (cards h) →
  cards h ≡ₚ cards h' →
  sorted_by pair_leb card_key (cards h) = sorted_by pair_leb card_key (cards h') ∧
  Hand_repr h = Hand_repr h'.
Proof.
  intros Hv Hp.
  assert (sorted_by pair_leb card_key (cards h) =
          sorted_by pair_leb card_key (cards h')) as Heq.
  { apply (StronglySorted_unique_strong (key_le pair_leb card_key)).
    - intros x y Hx Hy Hxy Hyx. rewrite sorted_by_perm in Hx, Hy.
      rewrite <-Hp in Hy. rewrite Forall_forall in Hv.
      apply valid_card_key_inj; [auto..|]. by apply pair_leb_antisym.
    - apply sorted_by_sorted; [apply pair_leb_total|apply pair_leb_trans].
    - apply sorted_by_sorted; [apply pair_leb_total|apply pair_leb_trans].
    - by rewrite !sorted_by_perm. }
  split; [done|]. unfold Hand_repr. by rewrite Heq.
Qed.

Lemma Hand_repr_permutation_witness :
  sorted_by pair_leb card_key (cards lt_h1) =
    sorted_by pair_leb card_key (cards (mkHand (reverse (cards lt_h1)))) ∧
  Hand_repr lt_h1 = Hand_repr (mkHand (reverse (cards lt_h1))).
Proof.
  apply (Hand_repr_permutation lt_h1 (mkHand (reverse (cards lt_h1)))).
  - repeat constructor.
  - symmetry. apply reverse_Permutation.
Defined.

(** ** How often a rank occurs *)

Lemma rank_count_py_count (h : Hand) (r : Z) :
  rank_count h r = py_count r (ranks_of h).
Proof. unfold rank_count, ranks_of. by rewrite py_count_fmap. Qed.

Lemma py_count_NoDup (l : list Z) (r : Z) :
  NoDup l → (py_count r l ≤ 1)%nat.
Proof.
  induction 1 as [|x l Hx _ IH]; [unfold py_count; simpl; lia|].
  rewrite py_count_cons.
  case_decide; [subst|done].
  destruct (decide (0 < py_count r l)%nat) as [Hpos%py_count_pos|]; [done|lia].
Qed.

Lemma NoDup_py_count (l : list Z) :
  (∀ r, (py_count r l ≤ 1)%nat) → NoDup l.
Proof.
  induction l as [|x l IH]; intros Hc; [constructor|].
  constructor.
  - intros Hx%py_count_pos. specialize (Hc x).
    rewrite py_count_cons, decide_True in Hc by done. lia.
  - apply IH. intros r. specialize (Hc r). rewrite py_count_cons in Hc.
    case_decide; lia.
Qed.

Lemma py_count_three (l : list Z) (r1 r2 r3 : Z) :
  r1 ≠ r2 → r1 ≠ r3 → r2 ≠ r3 →
  (py_count r1 l + py_count r2 l + py_count r3 l ≤ length l)%nat.
Proof.
  intros ???. induction l as [|x l IH]; [unfold py_count; simpl; lia|].
  rewrite !py_count_cons. simpl. repeat case_decide; subst; (done || lia).
Qed.

Lemma py_count_two (l : list Z) (r1 r2 : Z) :
  r1 ≠ r2 → (py_count r1 l + py_count r2 l ≤ length l)%nat.
Proof.
  intros ?. induction l as [|x l IH]; [unfold py_count; simpl; lia|].
  rewrite !py_count_cons. simpl. repeat case_decide; subst; (done || lia).
Qed.

Lemma Hand_init_NoDup_id (str_hash : string → Z) (arg : hand_arg) (h : Hand) :
  Hand_init str_hash arg = Ok h →
  Forall valid_card (cards h) →
  NoDup (card_id <$> cards h).
Proof.
  intros (_ & _ & Hnd)%Hand_init_Ok Hv. by apply (NoDup_set_key_valid str_hash).
Qed.

Lemma valid_card_suit (c : Card) : valid_card c → suit c ∈ suit_chars.
Proof.
  intros (r & v & s & (_ & _ & Hs) & Hc)%Card_init_Ok. by rewrite Hc.
Qed.

Lemma rank_count_le_4
    (str_hash : string → Z) (arg : hand_arg) (h : Hand) (r : Z) :
  Hand_init str_hash arg = Ok h →
  Forall valid_card (cards h) →
  (rank_count h r ≤ 4)%nat.
Proof.
  intros Hinit Hv. pose proof (Hand_init_NoDup_id _ _ _ Hinit Hv) as Hnd.
  unfold rank_count.
  set (l := filter (λ c, rank c = r) (cards h)).
  assert (NoDup (suit <$> l)) as Hsuits.
  { apply (NoDup_fmap_equiv card_id suit).
    - intros x y [Hx _]%list_elem_of_filter [Hy _]%list_elem_of_filter.
      unfold card_id. split; [by intros [= _ ->]|intros ->; congruence].
    - eapply sublist_NoDup; [exact Hnd|].
      apply fmap_sublist, sublist_filter. }
  rewrite <-(length_fmap suit l).
  change 4%nat with (length suit_chars).
  apply submseteq_length, NoDup_submseteq; [done|].
  intros s (c & -> & [_ Hc]%list_elem_of_filter)%list_elem_of_fmap.
  rewrite Forall_forall in Hv. by apply valid_card_suit, Hv.
Qed.

(** X10. In a constructed hand of valid cards no rank occurs more than four
    times: the cards of one rank have pairwise different suits. *)
Theorem rank_count_at_most_4
    (str_hash : string → Z) (arg : hand_arg) (h : Hand) (r : Z) :
  Hand_init str_hash arg = Ok h →
  Forall valid_card (cards h) →
  (rank_count h r ≤ 4)%nat.
Proof. apply rank_count_le_4. Qed.

Lemma rank_count_at_most_4_witness : (rank_count flush1 9 ≤ 4)%nat.
Proof.
  apply (rank_count_at_most_4 length_hash (ArgStr "9s 8s 6s 4s 2s")).
  - vm_compute. reflexivity.
  - repeat constructor.
Defined.

(** ** The categories in closed form *)

Lemma is_straight_NoDup (h : Hand) : is_straight h → NoDup (ranks_of h).
Proof.
  intros [[lo ->]| ->]; [apply NoDup_seqZ|].
  apply (bool_decide_unpack _). by vm_compute.
Qed.

Lemma is_flush_NoDup (h : Hand) :
  NoDup (card_id <$> cards h) → is_flush h → NoDup (ranks_of h).
Proof.
  intros Hnd [s Hs]. unfold ranks_of.
  apply (NoDup_fmap_equiv card_id rank); [|done].
  intros x y Hx Hy. unfold card_id. split; [by intros [= -> _]|].
  intros ->. by rewrite (Hs x Hx), (Hs y Hy).
Qed.

Lemma NoDup_no_repeat (h : Hand) (n : nat) :
  NoDup (ranks_of h) → (2 ≤ n)%nat → ¬ some_rank_has h n.
Proof.
  intros Hnd Hn [r Hr]. rewrite rank_count_py_count in Hr.
  pose proof (py_count_NoDup (ranks_of h) r Hnd). lia.
Qed.

Lemma some_rank_has_exclusive (h : Hand) (n m : nat) :
  length (cards h) = 5%nat → (5 < n + m)%nat → n ≠ m →
  some_rank_has h n → ¬ some_rank_has h m.
Proof.
  intros Hlen Hnm Hne [r1 H1] [r2 H2]. rewrite rank_count_py_count in H1, H2.
  assert (r1 ≠ r2) by (intros ->; lia).
  pose proof (py_count_two (ranks_of h) r1 r2 ltac:(done)) as Hc.
  unfold ranks_of in Hc at 3. rewrite length_fmap in Hc. lia.
Qed.

Lemma two_pairs_no_triple (h : Hand) :
  length (cards h) = 5%nat → two_ranks_have h 2 → ¬ some_rank_has h 3.
Proof.
  intros Hlen (r1 & r2 & Hne & H1 & H2) [r3 H3].
  rewrite rank_count_py_count in H1, H2, H3.
  assert (r1 ≠ r3) by (intros ->; lia).
  assert (r2 ≠ r3) by (intros ->; lia).
  pose proof (py_count_three (ranks_of h) r1 r2 r3
                ltac:(done) ltac:(done) ltac:(done)) as Hc.
  unfold ranks_of in Hc at 4. rewrite length_fmap in Hc. lia.
Qed.

Lemma two_ranks_have_some (h : Hand) (n : nat) :
  two_ranks_have h n → some_rank_has h n.
Proof. intros (r1 & _ & _ & H1 & _). by exists r1. Qed.

Lemma no_repeat_NoDup (h : Hand) :
  (∀ r, (rank_count h r ≤ 4)%nat) →
  ¬ some_rank_has h 2 → ¬ some_rank_has h 3 → ¬ some_rank_has h 4 →
  NoDup (ranks_of h).
Proof.
  intros H4 Hn2 Hn3 Hn4. apply NoDup_py_count. intros r.
  rewrite <-rank_count_py_count. specialize (H4 r).
  destruct (decide (rank_count h r ≤ 1)%nat); [done|]. exfalso.
  assert (rank_count h r = 2 ∨ rank_count h r = 3 ∨ rank_count h r = 4)%nat
    as [?|[?|?]] by lia;
    [apply Hn2|apply Hn3|apply Hn4]; by exists r.
Qed.

(** X11. For a constructed hand of valid cards each category has a condition
    of its own, which no longer mentions the rows above it: the conditions of
    the table overlap only in the straight that is also a flush.  A repeated
    rank excludes a straight and a flush, four of a kind excludes any other
    repeated rank, and two pairs exclude a triple. *)
Theorem eval_categories_closed_form
    (str_hash : string → Z) (arg : hand_arg) (h : Hand) (cat : string) (d : Z) :
  Hand_init str_hash arg = Ok h →
  Forall valid_card (cards h) →
  Hand_eval h = Ok (cat, d) →
  (cat = "straight flush" ↔ is_straight h ∧ is_flush h) ∧
  (cat = "four of a kind" ↔ some_rank_has h 4) ∧
  (cat = "full house" ↔ some_rank_has h 3 ∧ some_rank_has h 2) ∧
  (cat = "flush" ↔ is_flush h ∧ ¬ is_straight h) ∧
  (cat = "straight" ↔ is_straight h ∧ ¬ is_flush h) ∧
  (cat = "three of a kind" ↔ some_rank_has h 3 ∧ ¬ some_rank_has h 2) ∧
  (cat = "two pair" ↔ two_ranks_have h 2) ∧
  (cat = "pair" ↔
     some_rank_has h 2 ∧ ¬ two_ranks_have h 2 ∧ ¬ some_rank_has h 3) ∧
  (cat = "high card" ↔
     NoDup (ranks_of h) ∧ ¬ is_straight h ∧ ¬ is_flush h).
Proof.
  intros Hinit Hv Hev.
  pose proof (Hand_init_length _ _ _ Hinit) as Hlen.
  pose proof (Hand_init_nonempty _ _ _ Hinit) as Hne.
  pose proof (Hand_init_NoDup_id _ _ _ Hinit Hv) as Hid.
  destruct (Hand_eval_Ok h Hlen) as (straight & d' & n & _ & Hs & _ & _ & Hev').
  rewrite Hev in Hev'. injection Hev' as -> _.
  (* the facts that relate the conditions *)
  pose proof (is_straight_NoDup h) as FS.
  pose proof (is_flush_NoDup h Hid) as FF.
  pose proof (λ Hn, NoDup_no_repeat h 2 Hn ltac:(lia)) as N2.
  pose proof (λ Hn, NoDup_no_repeat h 3 Hn ltac:(lia)) as N3.
  pose proof (λ Hn, NoDup_no_repeat h 4 Hn ltac:(lia)) as N4.
  pose proof (some_rank_has_exclusive h 4 3 Hlen ltac:(lia) ltac:(lia)) as E43.
  pose proof (some_rank_has_exclusive h 4 2 Hlen ltac:(lia) ltac:(lia)) as E42.
  pose proof (two_pairs_no_triple h Hlen) as ET.
  pose proof (two_ranks_have_some h 2) as T2.
  pose proof (no_repeat_NoDup h
                (λ r, rank_count_le_4 str_hash arg h r Hinit Hv)) as ND.
  (* the flags of the program *)
  pose proof (flush_of_spec h Hne) as Hf.
  pose proof (some_rank_has_spec h 4 ltac:(lia)) as H4.
  pose proof (some_rank_has_spec h 3 ltac:(lia)) as H3.
  pose proof (some_rank_has_spec h 2 ltac:(lia)) as H2.
  pose proof (two_ranks_have_spec h 2 ltac:(lia)) as H22.
  change (Z.of_nat 4) with 4 in H4. change (Z.of_nat 3) with 3 in H3.
  change (Z.of_nat 2) with 2 in H2, H22.
  assert (if straight then is_straight h else ¬ is_straight h) as HS.
  { destruct straight; [by apply Hs|by intros ?%Hs]. }
  assert (if flush_of h then is_flush h else ¬ is_flush h) as HF.
  { destruct (flush_of h); [by apply Hf|by intros ?%Hf]. }
  clear Hs Hf. unfold pick_category.
  destruct straight, (flush_of h); simpl;
    repeat case_bool_decide; simpl;
    split_and!; try split; intros; try discriminate; try reflexivity;
    try tauto; exfalso; tauto.
Qed.

Lemma eval_categories_closed_form_witness :
  ("flush" = "straight flush" ↔ is_straight flush1 ∧ is_flush flush1) ∧
  ("flush" = "four of a kind" ↔ some_rank_has flush1 4) ∧
  ("flush" = "full house" ↔ some_rank_has flush1 3 ∧ some_rank_has flush1 2) ∧
  ("flush" = "flush" ↔ is_flush flush1 ∧ ¬ is_straight flush1) ∧
  ("flush" = "straight" ↔ is_straight flush1 ∧ ¬ is_flush flush1) ∧
  ("flush" = "three of a kind" ↔
     some_rank_has flush1 3 ∧ ¬ some_rank_has flush1 2) ∧
  ("flush" = "two pair" ↔ two_ranks_have flush1 2) ∧
  ("flush" = "pair" ↔
     some_rank_has flush1 2 ∧ ¬ two_ranks_have flush1 2 ∧
     ¬ some_rank_has flush1 3) ∧
  ("flush" = "high card" ↔
     NoDup (ranks_of flush1) ∧ ¬ is_straight flush1 ∧ ¬ is_flush flush1).
Proof.
  apply (eval_categories_closed_form length_hash (ArgStr "9s 8s 6s 4s 2s")
           flush1 "flush" 9).
  - vm_compute. reflexivity.
  - repeat constructor.
  - vm_compute. reflexivity.
Defined.

(** ** The hand the constructor returns *)

(** X12. A hand the constructor returns for tokens, or for valid [Card]
    objects, has exactly five cards, each the card of its own name, no two
    with the same rank and suit, and so no two with the same name. *)
Theorem Hand_init_invariant (str_hash : string → Z) (arg : hand_arg) (h : Hand) :
  Forall (λ i, ∀ c, i = ItemCard c → valid_card c) (supplied arg) →
  Hand_init str_hash arg = Ok h →
  length (cards h) = 5%nat ∧
  Forall valid_card (cards h) ∧
  NoDup (card_id <$> cards h) ∧
  NoDup (name <$> cards h).
Proof.
  intros Hitems Hinit.
  pose proof (proj1 (Hand_init_Ok _ _ _) Hinit) as (Hcs & Hlen & _).
  pose proof (list_comp_valid _ _ Hitems Hcs) as Hv.
  pose proof (Hand_init_NoDup_id _ _ _ Hinit Hv) as Hid.
  split_and!; [done..|].
  apply (NoDup_fmap_equiv card_id name); [|done].
  intros x y Hx Hy. rewrite Forall_forall in Hv. split.
  - apply valid_card_name; auto.
  - intros Hn. pose proof (Hv x Hx) as Vx. pose proof (Hv y Hy) as Vy.
    unfold valid_card in Vx, Vy. rewrite Hn, Vy in Vx. by injection Vx as ->.
Qed.

Lemma Hand_init_invariant_witness :
  length (cards straight3) = 5%nat ∧
  Forall valid_card (cards straight3) ∧
  NoDup (card_id <$> cards straight3) ∧
  NoDup (name <$> cards straight3).
Proof.
  apply (Hand_init_invariant length_hash (ArgStr "5c 4c 3d 2h Ah")).
  - repeat constructor; discriminate.
  - vm_compute. reflexivity.
Defined.

(** ** Which assertion a bad token fails *)

(** X13. The rank is checked before the suit: a token whose text before the
    last character is not in the rank table fails the rank assertion whatever
    its last character is, and a token with a rank of the table fails the
    suit assertion when its last character is not a suit. *)
Theorem Card_init_which_assertion (r : string) (s : ascii) :
  ((∀ v, (r, v) ∉ rank_table) →
   Card_init (r +:+ String s "") =
     Raise (AssertionError ("Bad rank: " +:+ (r +:+ String s "")))) ∧
  (∀ v, (r, v) ∈ rank_table → s ∉ suit_chars →
   Card_init (r +:+ String s "") =
     Raise (AssertionError ("Bad suit: " +:+ (r +:+ String s "")))).
Proof.
  unfold Card_init. destruct (str_app_last r s) as [-> ->]. simpl_bind.
  split.
  - intros Hr. destruct (RANK_NAME_TO_RANK !! r) as [v|] eqn:Hv; [|done].
    apply RANK_NAME_TO_RANK_lookup in Hv. by destruct (Hr v).
  - intros v Hr Hs. apply RANK_NAME_TO_RANK_lookup in Hr as ->.
    destruct (char_in s "hdcs") eqn:Hc; [|done].
    by apply char_in_suits in Hc.
Qed.

Lemma Card_init_which_assertion_witness :
  Card_init ("1" +:+ String "x" "") =
    Raise (AssertionError ("Bad rank: " +:+ ("1" +:+ String "x" ""))) ∧
  Card_init ("10" +:+ String "x" "") =
    Raise (AssertionError ("Bad suit: " +:+ ("10" +:+ String "x" ""))).
Proof.
  split.
  - apply (proj1 (Card_init_which_assertion "1" "x")).
    intros v Hv. unfold rank_table in Hv.
    rewrite !elem_of_cons, elem_of_nil in Hv. destruct_or!; simplify_eq.
  - apply (proj2 (Card_init_which_assertion "10" "x") 10).
    + unfold rank_table. rewrite !elem_of_cons. tauto.
    + unfold suit_chars. rewrite !elem_of_cons, elem_of_nil.
      intros H. destruct_or!; simplify_eq.
Defined.
